(** * package_skill.py: validating and packaging a skill directory

  A shallow embedding of [scripts/package_skill.py] and the properties of
  its three functions, [validate_skill], [package_skill] and [main].

  The script is almost entirely calls into the Python standard library
  (str, pathlib, zipfile) and PyYAML.  The library operations are modelled
  in the modules [Str], [Py], [PurePath] and [FS]; the YAML parser, the
  zip encoder and [str()] of non-string values are parameters of the
  section [Program].

  Model boundaries: path components are plain names (no symbolic links,
  [..] is not resolved), there are no permissions, file names contain
  neither [/] nor NUL, and the order of a directory walk is the order of
  the directory's entries.  Only standard output is recorded; a traceback
  goes to standard error. *)

From Stdlib Require Import String Ascii List ZArith NArith Bool Lia.
From Stdlib Require Import Floats.SpecFloat.
Import ListNotations.

Set Implicit Arguments.
Set Warnings "-register-all".

Infix "+++" := String.append (right associativity, at level 60).

(** Line feed, the only character the string notation cannot spell. *)
Definition LF : string := String (ascii_of_nat 10) EmptyString.

(* ================================================================== *)
(** ** Python [str] *)

(** A [str] is represented by its UTF-8 encoding.  The operations the script
  uses ([startswith], [split], [in]) search for ASCII needles, and UTF-8
  is self-synchronising, so they agree with the code-point versions. *)
Module Str.

(** [s.startswith(pre)]. *)
Fixpoint startswith (s pre : string) {struct pre} : bool :=
  match pre, s with
  | EmptyString, _ => true
  | String _ _, EmptyString => false
  | String a pre', String b s' => Ascii.eqb a b && startswith s' pre'
  end.

Fixpoint drop (n : nat) (s : string) : string :=
  match n, s with
  | O, _ => s
  | S _, EmptyString => EmptyString
  | S k, String _ t => drop k t
  end.

(** [partition sep s]: the text before and after the leftmost occurrence
    of [sep] in [s] ([str.partition] without the separator). *)
Fixpoint partition (sep s : string) : option (string * string) :=
  if startswith s sep then Some (EmptyString, drop (String.length sep) s)
  else match s with
       | EmptyString => None
       | String c t =>
           match partition sep t with
           | Some (a, b) => Some (String c a, b)
           | None => None
           end
       end.

(** [s.split(sep, maxsplit)] for a non-empty [sep]: at most [maxsplit]
    cuts, at the leftmost non-overlapping occurrences. *)
Fixpoint split (sep s : string) (maxsplit : nat) : list string :=
  match maxsplit with
  | O => [s]
  | S k =>
      match partition sep s with
      | None => [s]
      | Some (a, b) => a :: split sep b k
      end
  end.

(** [needle in s] for two strings: substring test. *)
Definition contains (needle s : string) : bool :=
  match partition needle s with
  | Some _ => true
  | None => false
  end.

Definition is_empty (s : string) : bool :=
  match s with
  | EmptyString => true
  | _ => false
  end.

(** [sep.join(xs)]. *)
Fixpoint join (sep : string) (xs : list string) : string :=
  match xs with
  | [] => EmptyString
  | [x] => x
  | x :: rest => x +++ sep +++ join sep rest
  end.

(** The bytes of [s] cut at every [/]. *)
Fixpoint segments (cur s : string) : list string :=
  match s with
  | EmptyString => [cur]
  | String c t =>
      if Ascii.eqb c "/"%char then cur :: segments EmptyString t
      else segments (cur +++ String c EmptyString) t
  end.

(** *** Decoding a file opened in text mode *)

Definition byte_in (lo hi : N) (c : ascii) : bool :=
  (lo <=? N_of_ascii c)%N && (N_of_ascii c <=? hi)%N.

Definition continuation (c : ascii) : bool := byte_in 128 191 c.

(** Well-formed UTF-8 (no overlong forms, no surrogates, at most U+10FFFF):
    what [bytes.decode("utf-8")] accepts. *)
Fixpoint utf8_valid (s : string) : bool :=
  match s with
  | EmptyString => true
  | String b0 t0 =>
      if byte_in 0 127 b0 then utf8_valid t0
      else if byte_in 194 223 b0 then
        match t0 with
        | String b1 t1 => continuation b1 && utf8_valid t1
        | _ => false
        end
      else if byte_in 224 239 b0 then
        match t0 with
        | String b1 (String b2 t2) =>
            (if byte_in 224 224 b0 then byte_in 160 191 b1
             else if byte_in 237 237 b0 then byte_in 128 159 b1
             else continuation b1)
            && continuation b2 && utf8_valid t2
        | _ => false
        end
      else if byte_in 240 244 b0 then
        match t0 with
        | String b1 (String b2 (String b3 t3)) =>
            (if byte_in 240 240 b0 then byte_in 144 191 b1
             else if byte_in 244 244 b0 then byte_in 128 143 b1
             else continuation b1)
            && continuation b2 && continuation b3 && utf8_valid t3
        | _ => false
        end
      else false
  end.

(** Universal newlines: [\r\n] and a lone [\r] are read as [\n]. *)
Fixpoint universal_newlines (s : string) : string :=
  match s with
  | EmptyString => EmptyString
  | String c t =>
      if Ascii.eqb c (ascii_of_nat 13) then
        match t with
        | String c' t' =>
            if Ascii.eqb c' (ascii_of_nat 10)
            then String (ascii_of_nat 10) (universal_newlines t')
            else String (ascii_of_nat 10) (universal_newlines t)
        | EmptyString => String (ascii_of_nat 10) EmptyString
        end
      else String c (universal_newlines t)
  end.

(** [bytes -> str] as [open(..., encoding="utf-8").read()] does it. *)
Definition decode_text (bytes : string) : option string :=
  if utf8_valid bytes then Some (universal_newlines bytes) else None.

End Str.

(* ================================================================== *)
(** ** Exceptions *)

Inductive exn_class :=
| FileNotFoundError | FileExistsError | IsADirectoryError | NotADirectoryError
| OSError | UnicodeDecodeError | TypeError | KeyError | IndexError | ValueError
| YAMLError.

(** An exception: its class and [str(e)]. *)
Inductive exn := Exn (cls : exn_class) (msg : string).

Definition exn_cls (e : exn) : exn_class := let (c, _) := e in c.
Definition exn_str (e : exn) : string := let (_, m) := e in m.

Inductive result (A : Type) :=
| Ok (a : A)
| Err (e : exn).
Arguments Ok {A} a.
Arguments Err {A} e.

(* ================================================================== *)
(** ** Python values built by [yaml.safe_load] *)

Module Py.

Inductive pyval :=
| PyNone
| PyBool (b : bool)
| PyInt (z : Z)
| PyFloat (f : spec_float)
| PyStr (s : string)
| PyBytes (b : string)
| PyDate (iso : string)
| PyList (xs : list pyval)
| PyTuple (xs : list pyval)
| PySet (xs : list pyval)
| PyDict (items : list (pyval * pyval)).

Definition type_name (v : pyval) : string :=
  match v with
  | PyNone => "NoneType" | PyBool _ => "bool" | PyInt _ => "int"
  | PyFloat _ => "float" | PyStr _ => "str" | PyBytes _ => "bytes"
  | PyDate _ => "datetime.date" | PyList _ => "list" | PyTuple _ => "tuple"
  | PySet _ => "set" | PyDict _ => "dict"
  end.

Definition nonempty {A} (xs : list A) : bool :=
  match xs with
  | [] => false
  | _ => true
  end.

(** [bool(v)], as tested by [not metadata]. *)
Definition truthy (v : pyval) : bool :=
  match v with
  | PyNone => false
  | PyBool b => b
  | PyInt z => negb (Z.eqb z 0)
  | PyFloat (S754_zero _) => false
  | PyFloat _ => true
  | PyStr s => negb (Str.is_empty s)
  | PyBytes b => negb (Str.is_empty b)
  | PyDate _ => true
  | PyList xs | PyTuple xs | PySet xs => nonempty xs
  | PyDict items => nonempty items
  end.

(** [v == k] for a [str] [k]: only an equal [str] compares equal. *)
Definition is_str (k : string) (v : pyval) : bool :=
  match v with
  | PyStr s => String.eqb s k
  | _ => false
  end.

(** [k in v] for a [str] [k]. *)
Definition contains (k : string) (v : pyval) : result bool :=
  match v with
  | PyDict items => Ok (existsb (fun kv => is_str k (fst kv)) items)
  | PyList xs | PyTuple xs | PySet xs => Ok (existsb (is_str k) xs)
  | PyStr s => Ok (Str.contains k s)
  | PyBytes _ =>
      Err (Exn TypeError "a bytes-like object is required, not 'str'")
  | _ =>
      Err (Exn TypeError
             ("argument of type '" +++ type_name v +++ "' is not iterable"))
  end.

(** The value bound to the [str] key [k] in a [dict]'s items. *)
Fixpoint dict_get (k : string) (items : list (pyval * pyval)) : option pyval :=
  match items with
  | [] => None
  | (key, v) :: rest => if is_str k key then Some v else dict_get k rest
  end.

(** [v[k]] for a [str] [k]. *)
Definition getitem (v : pyval) (k : string) : result pyval :=
  match v with
  | PyDict items =>
      match dict_get k items with
      | Some x => Ok x
      | None => Err (Exn KeyError ("'" +++ k +++ "'"))
      end
  | PyStr _ => Err (Exn TypeError "string indices must be integers, not 'str'")
  | PyBytes _ => Err (Exn TypeError "byte indices must be integers or slices, not str")
  | PyList _ => Err (Exn TypeError "list indices must be integers or slices, not str")
  | PyTuple _ => Err (Exn TypeError "tuple indices must be integers or slices, not str")
  | _ =>
      Err (Exn TypeError ("'" +++ type_name v +++ "' object is not subscriptable"))
  end.

Definition is_dict (v : pyval) : bool :=
  match v with
  | PyDict _ => true
  | _ => false
  end.

(** What [yaml.safe_load] does with a document. *)
Inductive load_result :=
| Loaded (v : pyval)
| ParseError (detail : string).

End Py.
Import Py.

(* ================================================================== *)
(** ** pathlib's pure paths *)

Module PurePath.

(** A POSIX path as pathlib normalises it: whether it is rooted, and its
    components (no empty component, no [.]).  A leading [//] is read as
    [/]. *)
Record Path := mkPath { absolute : bool; parts : list string }.

Definition keep_segment (c : string) : bool :=
  negb (Str.is_empty c || String.eqb c ".").

(** [Path(s)]. *)
Definition of_string (s : string) : Path :=
  {| absolute := Str.startswith s "/";
     parts := filter keep_segment (Str.segments EmptyString s) |}.

(** [p / q]: a rooted right operand replaces the left one. *)
Definition joinpath (p q : Path) : Path :=
  if absolute q then q
  else {| absolute := absolute p; parts := parts p ++ parts q |}.

(** [p / s] for a [str] [s]. *)
Definition div (p : Path) (s : string) : Path := joinpath p (of_string s).

(** [p.parent]: a path without components is its own parent. *)
Definition parent (p : Path) : Path :=
  {| absolute := absolute p; parts := removelast (parts p) |}.

(** [p.name]: the last component, or the empty string. *)
Definition name (p : Path) : string := last (parts p) EmptyString.

(** [strip_prefix pre xs]: [Some rest] when [xs = pre ++ rest]. *)
Fixpoint strip_prefix (pre xs : list string) : option (list string) :=
  match pre, xs with
  | [], _ => Some xs
  | a :: pre', b :: xs' => if String.eqb a b then strip_prefix pre' xs' else None
  | _ :: _, [] => None
  end.

(** [str(p)]. *)
Definition to_str (p : Path) : string :=
  if absolute p then "/" +++ Str.join "/" (parts p)
  else match parts p with
       | [] => "."
       | _ => Str.join "/" (parts p)
       end.

(** [p.relative_to(other)]: purely lexical. *)
Definition relative_to (p other : Path) : result Path :=
  match Bool.eqb (absolute p) (absolute other),
        strip_prefix (parts other) (parts p) with
  | true, Some rest => Ok {| absolute := false; parts := rest |}
  | _, _ =>
      Err (Exn ValueError
             ("'" +++ to_str p +++ "' is not in the subpath of '"
              +++ to_str other +++ "'"))
  end.

(** The path [rel] below [dir]. *)
Definition below (dir : Path) (rel : list string) : Path :=
  {| absolute := absolute dir; parts := parts dir ++ rel |}.

End PurePath.
Import PurePath.

(* ================================================================== *)
(** ** The file tree *)

Module FS.

(** A directory lists its entries in the order [scandir] reports them.
    [Special] stands for whatever is neither a regular file nor a directory;
    opening one is modelled on a socket, which [open] refuses. *)
Inductive node :=
| File (data : string)
| Dir (entries : list (string * node))
| Special.

Fixpoint assoc (c : string) (es : list (string * node)) : option node :=
  match es with
  | [] => None
  | (k, v) :: rest => if String.eqb k c then Some v else assoc c rest
  end.

(** Bind [c] to [v]: in place when [c] is listed, at the end otherwise. *)
Fixpoint set_assoc (c : string) (v : node) (es : list (string * node))
  : list (string * node) :=
  match es with
  | [] => [(c, v)]
  | (k, old) :: rest =>
      if String.eqb k c then (k, v) :: rest else (k, old) :: set_assoc c v rest
  end.

(** The node a path of components leads to. *)
Fixpoint lookup (n : node) (p : list string) : option node :=
  match p with
  | [] => Some n
  | c :: p' =>
      match n with
      | Dir es =>
          match assoc c es with
          | Some child => lookup child p'
          | None => None
          end
      | _ => None
      end
  end.

(** Why a path leads nowhere: a component below something that is not a
    directory gives ENOTDIR, a missing entry ENOENT. *)
Fixpoint missing_errno (n : node) (p : list string) : exn_class :=
  match p with
  | [] => FileNotFoundError
  | c :: p' =>
      match n with
      | Dir es =>
          match assoc c es with
          | Some child => missing_errno child p'
          | None => FileNotFoundError
          end
      | _ => NotADirectoryError
      end
  end.

Inductive sys (A : Type) :=
| Done (a : A)
| Errno (c : exn_class).
Arguments Done {A} a.
Arguments Errno {A} c.

(** A chain of new, empty directories. *)
Fixpoint fresh_dirs (p : list string) : node :=
  match p with
  | [] => Dir []
  | c :: p' => Dir [(c, fresh_dirs p')]
  end.

(** [mkdir(parents=True, exist_ok=True)] on the path [p] below [n]: existing
    directories are entered, the first missing component and all below it
    are created, and anything else in the way is an error. *)
Fixpoint mkdirs (n : node) (p : list string) : sys node :=
  match p with
  | [] =>
      match n with
      | Dir _ => Done n
      | _ => Errno FileExistsError
      end
  | c :: p' =>
      match n with
      | Dir es =>
          match assoc c es with
          | Some child =>
              match mkdirs child p' with
              | Done child' => Done (Dir (set_assoc c child' es))
              | Errno e => Errno e
              end
          | None => Done (Dir (set_assoc c (fresh_dirs p') es))
          end
      | _ => Errno NotADirectoryError
      end
  end.

(** [open(p, "wb")], writing [data] and closing: the parent directory must
    exist; a regular file is replaced; a directory is refused. *)
Fixpoint create (n : node) (p : list string) (data : string) : sys node :=
  match p with
  | [] =>
      match n with
      | File _ => Done (File data)
      | Dir _ => Errno IsADirectoryError
      | Special => Errno OSError
      end
  | c :: p' =>
      match n with
      | Dir es =>
          match assoc c es with
          | Some child =>
              match create child p' data with
              | Done child' => Done (Dir (set_assoc c child' es))
              | Errno e => Errno e
              end
          | None =>
              match p' with
              | [] => Done (Dir (set_assoc c (File data) es))
              | _ => Errno FileNotFoundError
              end
          end
      | _ => Errno NotADirectoryError
      end
  end.

(** Everything below a directory, as paths relative to it: each entry,
    followed by what is below it. *)
Fixpoint descendants (n : node) : list (list string) :=
  match n with
  | Dir es =>
      flat_map (fun e => [fst e] :: map (cons (fst e)) (descendants (snd e))) es
  | _ => []
  end.

Definition is_file_node (o : option node) : bool :=
  match o with
  | Some (File _) => true
  | _ => false
  end.

Definition is_dir_node (o : option node) : bool :=
  match o with
  | Some (Dir _) => true
  | _ => false
  end.

Definition is_some_node (o : option node) : bool :=
  match o with
  | Some _ => true
  | None => false
  end.

(** Nothing but directories on the way: every node that exists along [p],
    the last one included, is a directory. *)
Fixpoint only_dirs_on (n : node) (p : list string) : bool :=
  match n with
  | Dir es =>
      match p with
      | [] => true
      | c :: p' =>
          match assoc c es with
          | Some child => only_dirs_on child p'
          | None => true
          end
      end
  | _ => false
  end.




End FS.

(* ================================================================== *)
(** ** The process state and the monad of the script *)

(** An archive member: its name inside the archive and its bytes. *)
Definition entry : Type := Path * string.

(** What the script can observe or change: the file tree, the working
    directory, what was printed (one item per [print] call), and the members
    written so far to the one [ZipFile] object it ever opens. *)
Record world := mkWorld {
  fs : FS.node;
  cwd : list string;
  stdout : list string;
  zf_entries : list entry
}.

Definition set_fs (w : world) (t : FS.node) : world :=
  {| fs := t; cwd := cwd w; stdout := stdout w; zf_entries := zf_entries w |}.

Definition set_stdout (w : world) (o : list string) : world :=
  {| fs := fs w; cwd := cwd w; stdout := o; zf_entries := zf_entries w |}.

Definition set_zf_entries (w : world) (es : list entry) : world :=
  {| fs := fs w; cwd := cwd w; stdout := stdout w; zf_entries := es |}.

(** How a computation ends: a value, an exception, or [sys.exit(code)]
    ([SystemExit] is not an [Exception], so [except Exception] lets it by). *)
Inductive outcome (A : Type) :=
| Ret (a : A)
| Raise (e : exn)
| SysExit (code : Z).
Arguments Ret {A} a.
Arguments Raise {A} e.
Arguments SysExit {A} code.

Definition M (A : Type) : Type := world -> outcome A * world.

Definition ret {A} (a : A) : M A := fun w => (Ret a, w).

Definition bind {A B} (c : M A) (k : A -> M B) : M B :=
  fun w =>
    match c w with
    | (Ret a, w') => k a w'
    | (Raise e, w') => (Raise e, w')
    | (SysExit n, w') => (SysExit n, w')
    end.

Notation "x <- c ;; k" := (bind c (fun x => k))
  (at level 61, c at next level, right associativity).
Notation "c ;; k" := (bind c (fun _ => k))
  (at level 61, right associativity).

Definition raise {A} (e : exn) : M A := fun w => (Raise e, w).

Definition sys_exit {A} (code : Z) : M A := fun w => (SysExit code, w).

Definition lift {A} (r : result A) : M A :=
  match r with
  | Ok a => ret a
  | Err e => raise e
  end.

(** [print(s)]. *)
Definition print (s : string) : M unit :=
  fun w => (Ret tt, set_stdout w (stdout w ++ [s])).

(** [try: body  except Exception as e: handler(e)]. *)
Definition try_except {A} (body : M A) (handler : exn -> M A) : M A :=
  fun w =>
    match body w with
    | (Raise e, w') => handler e w'
    | other => other
    end.

(** [with]-style cleanup: [cleanup] runs however [body] ends, and an
    exception of its own replaces the body's result. *)
Definition finally {A} (body : M A) (cleanup : M unit) : M A :=
  fun w =>
    let (r, w1) := body w in
    match cleanup w1 with
    | (Ret _, w2) => (r, w2)
    | (Raise e, w2) => (Raise e, w2)
    | (SysExit n, w2) => (SysExit n, w2)
    end.

(** [for x in xs: body(x)]. *)
Fixpoint for_each {A} (xs : list A) (body : A -> M unit) : M unit :=
  match xs with
  | [] => ret tt
  | x :: rest => body x ;; for_each rest body
  end.

(** The exit status the shell sees: an uncaught exception ends the
    interpreter with status 1, falling off the end of [main] with 0. *)
Definition exit_status {A} (r : outcome A) : Z :=
  match r with
  | Ret _ => 0
  | Raise _ => 1
  | SysExit n => n
  end.

(* ------------------------------------------------------------------ *)
(** *** pathlib's concrete paths *)

(** The components from the root that a path denotes for a process whose
    working directory is [c]. *)
Definition resolve_from (c : list string) (p : Path) : list string :=
  if absolute p then parts p else c ++ parts p.

Definition resolve (w : world) (p : Path) : list string :=
  resolve_from (cwd w) p.

Definition stat (w : world) (p : Path) : option FS.node :=
  FS.lookup (fs w) (resolve w p).

Definition path_exists (p : Path) : M bool :=
  fun w => (Ret (FS.is_some_node (stat w p)), w).

Definition is_dir (p : Path) : M bool :=
  fun w => (Ret (FS.is_dir_node (stat w p)), w).

Definition is_file (p : Path) : M bool :=
  fun w => (Ret (FS.is_file_node (stat w p)), w).

(** [Path.cwd()]. *)
Definition path_cwd : M Path :=
  fun w => (Ret {| absolute := true; parts := cwd w |}, w).

(** [os.strerror] with its [errno], on Linux. *)
Definition strerror (c : exn_class) : string :=
  match c with
  | FileNotFoundError => "[Errno 2] No such file or directory"
  | FileExistsError => "[Errno 17] File exists"
  | NotADirectoryError => "[Errno 20] Not a directory"
  | IsADirectoryError => "[Errno 21] Is a directory"
  | _ => "[Errno 6] No such device or address"
  end.

(** The [OSError] a system call on [p] raises ([p] without quotes or
    escapes in its text). *)
Definition os_error (c : exn_class) (p : Path) : exn :=
  Exn c (strerror c +++ ": '" +++ to_str p +++ "'").

(** [p.read_bytes()]. *)
Definition read_bytes (p : Path) : M string :=
  fun w =>
    match stat w p with
    | Some (FS.File data) => (Ret data, w)
    | Some (FS.Dir _) => (Raise (os_error IsADirectoryError p), w)
    | Some FS.Special => (Raise (os_error OSError p), w)
    | None => (Raise (os_error (FS.missing_errno (fs w) (resolve w p)) p), w)
    end.

(** [p.read_text(encoding="utf-8")]. *)
Definition read_text (p : Path) : M string :=
  bytes <- read_bytes p ;;
  match Str.decode_text bytes with
  | Some text => ret text
  | None =>
      raise (Exn UnicodeDecodeError "'utf-8' codec can't decode bytes")
  end.

(** [p.mkdir(parents=True, exist_ok=True)]. *)
Definition mkdir_parents_exist_ok (p : Path) : M unit :=
  fun w =>
    match FS.mkdirs (fs w) (resolve w p) with
    | FS.Done t => (Ret tt, set_fs w t)
    | FS.Errno c => (Raise (os_error c p), w)
    end.

(** [p.rglob("*")]: every path below [p]; nothing when [p] is not a
    directory.  The loop that consumes it never changes which entries the
    tree has, so the generator is run to its end up front. *)
Definition rglob (p : Path) : M (list Path) :=
  fun w =>
    match stat w p with
    | Some t => (Ret (map (below p) (FS.descendants t)), w)
    | None => (Ret [], w)
    end.

(** [xs[i]]. *)
Definition index {A} (xs : list A) (i : nat) : M A :=
  match nth_error xs i with
  | Some x => ret x
  | None => raise (Exn IndexError "list index out of range")
  end.

(* ================================================================== *)
(** ** The script *)

Section Program.

(** [yaml.safe_load] on a document. *)
Variable safe_load : string -> load_result.

(** [str(v)] for a value that is not a [str]. *)
Variable py_repr : pyval -> string.

(** The bytes of a deflate-compressed archive with the given members: as
    visible on disk while the archive is still open, and once closed. *)
Variable zip_partial : list entry -> string.
Variable zip_final : list entry -> string.

(** [f"{v}"]. *)
Definition format_value (v : pyval) : string :=
  match v with
  | PyStr s => s
  | _ => py_repr v
  end.

(** [yaml.safe_load(block)] outside any [try]. *)
Definition yaml_safe_load (block : string) : M pyval :=
  match safe_load block with
  | Loaded v => ret v
  | ParseError detail => raise (Exn YAMLError detail)
  end.

(* ------------------------------------------------------------------ *)
(** *** zipfile *)

(** [ZipFile(p, "w", ZIP_DEFLATED)]: the file is created or truncated at
    once, and the object starts without members. *)
Definition ZipFile_w (p : Path) : M Path :=
  fun w =>
    match FS.create (fs w) (resolve w p) EmptyString with
    | FS.Done t => (Ret p, set_zf_entries (set_fs w t) [])
    | FS.Errno c => (Raise (os_error c p), w)
    end.

(** [zf.write(file_path, arcname)]: the member's bytes are read now.  When
    the file is the archive under construction, what is read is what has
    reached the disk so far.  The names the script passes are relative and
    free of [.], so zipfile stores them as they are. *)
Definition zf_write (zf : Path) (file_path arcname : Path) : M unit :=
  fun w =>
    match read_bytes file_path w with
    | (Ret on_disk, _) =>
        let data :=
          if list_eq_dec string_dec (resolve w file_path) (resolve w zf)
          then zip_partial (zf_entries w) else on_disk in
        (Ret tt, set_zf_entries w (zf_entries w ++ [(arcname, data)]))
    | (Raise e, _) => (Raise e, w)
    | (SysExit n, _) => (SysExit n, w)
    end.

(** [zf.close()], run when the [with] block is left. *)
Definition zf_close (zf : Path) : M unit :=
  fun w =>
    match FS.create (fs w) (resolve w zf) (zip_final (zf_entries w)) with
    | FS.Done t => (Ret tt, set_fs w t)
    | FS.Errno c => (Raise (os_error c zf), w)
    end.

(* ------------------------------------------------------------------ *)
(** *** validate_skill *)

Definition validate_skill (skill_dir : Path) : M bool :=
  let skill_md := div skill_dir "SKILL.md" in
  found <- path_exists skill_md ;;
  if negb found then
    print ("❌ Error: SKILL.md not found in " +++ to_str skill_dir) ;;
    ret false
  else
  content <- read_text skill_md ;;
  if negb (Str.startswith content "---") then
    print "❌ Error: SKILL.md missing YAML frontmatter (must start with '---')" ;;
    ret false
  else
  let parts := Str.split "---" content 2 in
  if (List.length parts <? 3)%nat then
    print "❌ Error: Invalid YAML frontmatter format" ;;
    ret false
  else
  match safe_load (nth 1 parts EmptyString) with
  | ParseError detail =>
      print ("❌ Error: Invalid YAML in frontmatter: " +++ detail) ;;
      ret false
  | Loaded metadata =>
      if negb (truthy metadata) then
        print "❌ Error: Empty YAML frontmatter" ;;
        ret false
      else
      has_name <- lift (Py.contains "name" metadata) ;;
      if negb has_name then
        print "❌ Error: Missing required field: name" ;;
        ret false
      else
      has_description <- lift (Py.contains "description" metadata) ;;
      if negb has_description then
        print "❌ Error: Missing required field: description" ;;
        ret false
      else
      ret true
  end.

(* ------------------------------------------------------------------ *)
(** *** package_skill *)

(** Lines 96-100: the body of the loop over [skill_dir.rglob("*")]. *)
Definition add_member (zf skill_dir file_path : Path) : M unit :=
  regular <- is_file file_path ;;
  if regular then
    arcname <- lift (relative_to file_path (parent skill_dir)) ;;
    zf_write zf file_path arcname ;;
    print ("  Added: " +++ to_str arcname)
  else ret tt.

(** Lines 86-102: from creating the output directory to the [return]. *)
Definition write_archive (skill_name : pyval) (skill_dir output_dir : Path)
  : M Path :=
  mkdir_parents_exist_ok output_dir ;;
  let output_file := div output_dir (format_value skill_name +++ ".skill") in
  zf <- ZipFile_w output_file ;;
  finally
    (paths <- rglob skill_dir ;;
     for_each paths (add_member zf skill_dir))
    (zf_close zf) ;;
  ret output_file.

Definition package_skill (skill_dir output_dir : Path) : M Path :=
  let skill_md := div skill_dir "SKILL.md" in
  content <- read_text skill_md ;;
  let parts := Str.split "---" content 2 in
  block <- index parts 1 ;;
  metadata <- yaml_safe_load block ;;
  skill_name <- lift (getitem metadata "name") ;;
  write_archive skill_name skill_dir output_dir.

(* ------------------------------------------------------------------ *)
(** *** main *)

(** [main] after [parser.parse_args()]: [output_arg] is [None] when the
    optional argument was left out.  The archiver is a parameter so that
    "it is never called" can be said. *)
Definition main_with (package : Path -> Path -> M Path)
    (skill_dir : Path) (output_arg : option Path) : M unit :=
  default <- path_cwd ;;
  let output_dir := match output_arg with Some p => p | None => default end in
  found <- path_exists skill_dir ;;
  if negb found then
    print ("❌ Error: Skill directory not found: " +++ to_str skill_dir) ;;
    sys_exit 1
  else
  dir <- is_dir skill_dir ;;
  if negb dir then
    print ("❌ Error: Not a directory: " +++ to_str skill_dir) ;;
    sys_exit 1
  else
  print ("📦 Packaging skill: " +++ to_str skill_dir) ;;
  print ("   Output directory: " +++ to_str output_dir +++ LF) ;;
  print "🔍 Validating skill..." ;;
  valid <- validate_skill skill_dir ;;
  if negb valid then sys_exit 1
  else
  print ("✅ Skill is valid!" +++ LF) ;;
  try_except
    (output_file <- package skill_dir output_dir ;;
     print (LF +++ "✅ Successfully packaged skill to: " +++ to_str output_file))
    (fun e =>
       print (LF +++ "❌ Error packaging skill: " +++ exn_str e) ;;
       sys_exit 1).

Definition main : Path -> option Path -> M unit := main_with package_skill.

(* ------------------------------------------------------------------ *)
(** *** The module body *)

(** Lines 9-16: [import yaml] under [try]; [installed] says whether PyYAML
    can be imported. *)
Definition import_yaml (installed : bool) : M unit :=
  if installed then ret tt
  else
    print "Error: PyYAML is not installed." ;;
    print "Install it with: pip install pyyaml" ;;
    print "Or: pip install -r requirements.txt" ;;
    sys_exit 1.

(** The file run as a program, once the arguments are parsed: the imports,
    then [main()].  The entry point is a parameter so that "it is never
    reached" can be said. *)
Definition script_with (entry : Path -> option Path -> M unit)
    (installed : bool) (skill_dir : Path) (output_arg : option Path)
  : M unit :=
  import_yaml installed ;;
  entry skill_dir output_arg.

Definition script : bool -> Path -> option Path -> M unit := script_with main.

(* ------------------------------------------------------------------ *)
(** *** Vocabulary of the statements *)

(** The metadata [validate_skill] gets to examine: the parse of the block
    between the first two delimiters, when every earlier check passes. *)
Definition parsed_metadata (w : world) (skill_dir : Path) : option pyval :=
  match stat w (div skill_dir "SKILL.md") with
  | Some (FS.File bytes) =>
      match Str.decode_text bytes with
      | Some content =>
          let parts := Str.split "---" content 2 in
          if Str.startswith content "---" && (3 <=? List.length parts)%nat then
            match safe_load (nth 1 parts EmptyString) with
            | Loaded m => Some m
            | ParseError _ => None
            end
          else None
      | None => None
      end
  | _ => None
  end.

(** The [skill_name] [package_skill] arrives at on line 84, if it does. *)
Definition skill_name_of (w : world) (skill_dir : Path) : option pyval :=
  match stat w (div skill_dir "SKILL.md") with
  | Some (FS.File bytes) =>
      match Str.decode_text bytes with
      | Some content =>
          match nth_error (Str.split "---" content 2) 1 with
          | Some block =>
              match safe_load block with
              | Loaded m =>
                  match getitem m "name" with
                  | Ok v => Some v
                  | Err _ => None
                  end
              | ParseError _ => None
              end
          | None => None
          end
      | None => None
      end
  | _ => None
  end.

(** [p.relative_to(base)] when it is known to succeed. *)
Definition arc_of (base p : Path) : Path :=
  match relative_to p base with
  | Ok arc => arc
  | Err _ => p
  end.

(** The members the loop of [package_skill] adds after [acc], one per path
    that is a regular file in the tree [t], in the order of [paths]. *)
Fixpoint collect (t : FS.node) (c zf : list string) (base : Path)
    (acc : list entry) (paths : list Path) : list entry :=
  match paths with
  | [] => []
  | p :: rest =>
      match FS.lookup t (resolve_from c p) with
      | Some (FS.File on_disk) =>
          let data :=
            if list_eq_dec string_dec (resolve_from c p) zf
            then zip_partial acc else on_disk in
          let e := (arc_of base p, data) in
          e :: collect t c zf base (acc ++ [e]) rest
      | _ => collect t c zf base acc rest
      end
  end.

(** What [skill_dir.rglob("*")] yields in the tree [t]. *)
Definition walked (t : FS.node) (c : list string) (skill_dir : Path)
  : list Path :=
  match FS.lookup t (resolve_from c skill_dir) with
  | Some n => map (below skill_dir) (FS.descendants n)
  | None => []
  end.

(** The members of the archive written to [target] from the tree [t]. *)
Definition members (t : FS.node) (c : list string) (skill_dir target : Path)
  : list entry :=
  collect t c (resolve_from c target) (parent skill_dir) []
    (walked t c skill_dir).

(** The output directory [main] works with. *)
Definition output_dir_of (w : world) (output_arg : option Path) : Path :=
  match output_arg with
  | Some p => p
  | None => {| absolute := true; parts := cwd w |}
  end.

(** The state in which [main] calls [validate_skill]. *)
Definition at_validation (w : world) (skill_dir output_dir : Path) : world :=
  set_stdout w
    (stdout w ++ ["📦 Packaging skill: " +++ to_str skill_dir;
                  "   Output directory: " +++ to_str output_dir +++ LF;
                  "🔍 Validating skill..."%string]).

(** The state in which [main] calls [package_skill]. *)
Definition at_packaging (w : world) (skill_dir output_dir : Path) : world :=
  let w0 := at_validation w skill_dir output_dir in
  set_stdout w0 (stdout w0 ++ ["✅ Skill is valid!" +++ LF]).

End Program.

(** The components [dir.name] contributes to an archive name: none for a
    path without components ([.] or [/]). *)
Definition name_parts (dir : Path) : list string :=
  match parts dir with
  | [] => []
  | _ => [name dir]
  end.


(** The line [package_skill] prints for a member. *)
Definition added_line (e : entry) : string := "  Added: " +++ to_str (fst e).

(** The state [package_skill] leaves when it made the archive [ms] in the
    tree [t3]. *)
Definition packaged (w : world) (t3 : FS.node) (ms : list entry) : world :=
  {| fs := t3; cwd := cwd w;
     stdout := stdout w ++ map added_line ms; zf_entries := ms |}.

(* ================================================================== *)
(** ** Sample data *)

(** Concrete parameters and inputs, for the examples and the instances of
    the theorems below. *)
Module Sample.

(** [yaml.safe_load] on the blocks of the sample documents.  Any other
    document is outside the table and reported as unparsed. *)
Definition pyyaml (block : string) : load_result :=
  if String.eqb block (LF +++ "name: foo" +++ LF +++ "description: bar" +++ LF)
  then Loaded (PyDict [(PyStr "name", PyStr "foo");
                       (PyStr "description", PyStr "bar")])
  else if String.eqb block (LF +++ "name: a/b" +++ LF +++ "description: c" +++ LF)
  then Loaded (PyDict [(PyStr "name", PyStr "a/b");
                       (PyStr "description", PyStr "c")])
  else if String.eqb block ("name: x" +++ LF +++ "description: y")
  then Loaded (PyDict [(PyStr "name", PyStr "x");
                       (PyStr "description", PyStr "y")])
  else if String.eqb block (LF +++ "name: a")
  then Loaded (PyDict [(PyStr "name", PyStr "a")])
  else if String.eqb block (LF +++ "42" +++ LF)
  then Loaded (PyInt 42)
  else if String.eqb block (LF +++ "name description" +++ LF)
  then Loaded (PyStr "name description")
  else ParseError "not a sample document".

(** [str()] of the few non-string values that have a fixed spelling. *)
Definition repr (v : pyval) : string :=
  match v with
  | PyNone => "None"
  | PyBool true => "True"
  | PyBool false => "False"
  | _ => "<" +++ type_name v +++ ">"
  end.

(** A stand-in for the archive encoder: a listing of the members. *)
Definition listing (es : list entry) : string :=
  Str.join ";" (map (fun e => to_str (fst e) +++ "=" +++ snd e) es).

Definition zip_partial (es : list entry) : string := "PK.." +++ listing es.
Definition zip_final (es : list entry) : string := "PK:" +++ listing es.

(** A well-formed metadata file. *)
Definition doc_valid : string :=
  "---" +++ LF +++ "name: foo" +++ LF +++ "description: bar" +++ LF
  +++ "---" +++ LF +++ "body".

(** A name with a [/] in it. *)
Definition doc_slash : string :=
  "---" +++ LF +++ "name: a/b" +++ LF +++ "description: c" +++ LF
  +++ "---" +++ LF.

(** Delimiters that are not on lines of their own. *)
Definition doc_inline : string :=
  "---name: x" +++ LF +++ "description: y---trailing".

(** A [---] inside a value, before the closing delimiter line. *)
Definition doc_dashes_in_value : string :=
  "---" +++ LF +++ "name: a---b" +++ LF +++ "description: c" +++ LF
  +++ "---" +++ LF.

(** A block that is the integer 42. *)
Definition doc_int : string := "---" +++ LF +++ "42" +++ LF +++ "---" +++ LF.

(** A block that is one plain string. *)
Definition doc_scalar : string :=
  "---" +++ LF +++ "name description" +++ LF +++ "---" +++ LF.


(** [/work/demo] holding the metadata file, a file and a subdirectory with a
    file; the process runs in [/work]. *)
Definition tree_with (doc : string) : FS.node :=
  FS.Dir [("work"%string,
           FS.Dir [("demo"%string,
                    FS.Dir [("SKILL.md"%string, FS.File doc);
                            ("a.txt"%string, FS.File "A");
                            ("sub"%string,
                             FS.Dir [("b.txt"%string, FS.File "B")])])])].

Definition world_with (doc : string) : world :=
  {| fs := tree_with doc; cwd := ["work"%string]; stdout := [];
     zf_entries := [] |}.

Definition demo : Path := of_string "demo".
Definition out : Path := of_string "out".

End Sample.

(** Further inputs, for the error paths of the script. *)
Module Cases.

(** [yaml.safe_load] with one more block in its table: a mapping that has
    no [name]. *)
Definition pyyaml (block : string) : load_result :=
  if String.eqb block (LF +++ "description: only" +++ LF)
  then Loaded (PyDict [(PyStr "description", PyStr "only")])
  else Sample.pyyaml block.

(** Frontmatter without a name. *)
Definition doc_no_name : string :=
  "---" +++ LF +++ "description: only" +++ LF +++ "---" +++ LF.

(** No frontmatter at all. *)
Definition doc_plain : string := "# A skill" +++ LF.

(** An opening delimiter that is never closed. *)
Definition doc_unclosed : string := "---" +++ LF +++ "x".

(** The frontmatter of [Sample.doc_valid] before another body. *)
Definition doc_other_body : string :=
  "---" +++ LF +++ "name: foo" +++ LF +++ "description: bar" +++ LF
  +++ "---" +++ LF +++ "another body, with --- in it".

End Cases.

(* ================================================================== *)
(** * Properties *)

(** ** Strings *)

Module StrFacts.

Lemma append_assoc (a b c : string) : (a +++ b) +++ c = a +++ b +++ c.
Proof. induction a; simpl; congruence. Qed.

Lemma length_append (a b : string) :
  String.length (a +++ b) = (String.length a + String.length b)%nat.
Proof. induction a; simpl; congruence. Qed.

Lemma startswith_split (sep s : string) :
  Str.startswith s sep = true -> s = sep +++ Str.drop (String.length sep) s.
Proof.
  revert s; induction sep as [|c sep IH]; intros s H.
  - reflexivity.
  - destruct s as [|d s]; simpl in H; [discriminate|].
    apply andb_true_iff in H as [E H]. apply Ascii.eqb_eq in E as ->.
    simpl. f_equal. now apply IH.
Qed.

Lemma startswith_append (sep s : string) : Str.startswith (sep +++ s) sep = true.
Proof.
  induction sep as [|c sep IH]; simpl; [reflexivity|].
  now rewrite Ascii.eqb_refl.
Qed.

Lemma drop_append (sep s : string) :
  Str.drop (String.length sep) (sep +++ s) = s.
Proof. induction sep; simpl; auto. Qed.

Lemma partition_eq (sep s : string) :
  Str.partition sep s =
  if Str.startswith s sep
  then Some (EmptyString, Str.drop (String.length sep) s)
  else match s with
       | EmptyString => None
       | String c t =>
           match Str.partition sep t with
           | Some (a, b) => Some (String c a, b)
           | None => None
           end
       end.
Proof. destruct s; reflexivity. Qed.

(** What [partition] returns does surround an occurrence of [sep]. *)
Lemma partition_sound (sep s a b : string) :
  Str.partition sep s = Some (a, b) -> s = a +++ sep +++ b.
Proof.
  revert a b; induction s as [|c s IH]; intros a b H; rewrite partition_eq in H;
    destruct (Str.startswith _ sep) eqn:P.
  - inversion H; subst. now apply startswith_split.
  - discriminate.
  - inversion H; subst. now apply startswith_split.
  - destruct (Str.partition sep s) as [[a' b']|] eqn:Q; [|discriminate].
    inversion H; subst. simpl. f_equal. now apply IH.
Qed.

(** A delimiter that no earlier one precedes is where [partition] cuts. *)
Lemma partition_delimiter (a b : string) :
  Str.partition "---" (a +++ "--") = None ->
  Str.partition "---" (a +++ "---" +++ b) = Some (a, b).
Proof.
  induction a as [|c a IH]; intros H.
  - change (EmptyString +++ "---" +++ b) with ("---" +++ b).
    now rewrite partition_eq, startswith_append, drop_append.
  - rewrite partition_eq in H. rewrite partition_eq.
    destruct (Str.startswith (String c a +++ "--") "---") eqn:P; [discriminate|].
    assert (P' : Str.startswith (String c a +++ "---" +++ b) "---" = false).
    { destruct a as [|d [|e a]]; cbn in P |- *;
        repeat match goal with
               | |- context [Ascii.eqb ?x ?y] => destruct (Ascii.eqb x y)
               end; auto; try discriminate. }
    rewrite P'. cbn [String.append] in H |- *.
    destruct (Str.partition "---" (a +++ "--")) as [[? ?]|] eqn:Q; [discriminate|].
    pose proof (IH eq_refl) as R. cbn [String.append] in R. now rewrite R.
Qed.

Lemma split_frontmatter (block rest : string) :
  Str.partition "---" (block +++ "--") = None ->
  Str.split "---" ("---" +++ block +++ "---" +++ rest) 2
  = [EmptyString; block; rest].
Proof.
  intros H. cbn [Str.split].
  rewrite partition_eq, startswith_append, drop_append.
  now rewrite (partition_delimiter _ _ H).
Qed.

(** Three parts mean two disjoint occurrences of the delimiter. *)
Lemma split_three (sep s : string) :
  (3 <= List.length (Str.split sep s 2))%nat ->
  exists a b c, Str.split sep s 2 = [a; b; c] /\ s = a +++ sep +++ b +++ sep +++ c.
Proof.
  cbn [Str.split]. destruct (Str.partition sep s) as [[a r]|] eqn:P1.
  - destruct (Str.partition sep r) as [[b c]|] eqn:P2.
    + intros _. exists a, b, c. split; [reflexivity|].
      apply partition_sound in P1, P2. now subst.
    + simpl. lia.
  - simpl. lia.
Qed.

End StrFacts.

(** ** File trees *)

Module FSFacts.
Import FS.

Lemma assoc_set_assoc_eq c v es : assoc c (set_assoc c v es) = Some v.
Proof.
  induction es as [|[k x] es IH]; simpl.
  - now rewrite String.eqb_refl.
  - destruct (String.eqb k c) eqn:E; simpl; rewrite E; auto.
Qed.

Lemma assoc_set_assoc_neq c c' v es :
  c <> c' -> assoc c' (set_assoc c v es) = assoc c' es.
Proof.
  intros N. induction es as [|[k x] es IH]; simpl.
  - apply String.eqb_neq in N. now rewrite N.
  - destruct (String.eqb k c) eqn:E; simpl.
    + apply String.eqb_eq in E as ->. apply String.eqb_neq in N. now rewrite N.
    + destruct (String.eqb k c'); auto.
Qed.

Lemma set_assoc_same c v es : assoc c es = Some v -> set_assoc c v es = es.
Proof.
  induction es as [|[k x] es IH]; simpl; [discriminate|].
  destruct (String.eqb k c); [intros [= ->]; reflexivity|].
  intros H. now rewrite IH.
Qed.

Lemma set_assoc_twice c v1 v2 es :
  set_assoc c v2 (set_assoc c v1 es) = set_assoc c v2 es.
Proof.
  induction es as [|[k x] es IH]; simpl.
  - now rewrite String.eqb_refl.
  - destruct (String.eqb k c) eqn:E; simpl; rewrite E; congruence.
Qed.

(** Updates of two different names commute when the second is listed. *)
Lemma set_assoc_comm c d u v x es :
  c <> d -> assoc d es = Some x ->
  set_assoc c u (set_assoc d v es) = set_assoc d v (set_assoc c u es).
Proof.
  intros N. induction es as [|[k y] es IH]; simpl; [discriminate|].
  destruct (String.eqb k d) eqn:D; destruct (String.eqb k c) eqn:C; simpl;
    rewrite ?D, ?C; intros A.
  - apply String.eqb_eq in D, C. congruence.
  - reflexivity.
  - reflexivity.
  - f_equal. auto.
Qed.

Lemma strip_prefix_app pre rest : strip_prefix pre (pre ++ rest) = Some rest.
Proof. induction pre; simpl; [|rewrite String.eqb_refl]; auto. Qed.

Lemma strip_prefix_Some pre xs rest :
  strip_prefix pre xs = Some rest -> xs = pre ++ rest.
Proof.
  revert xs; induction pre as [|a pre IH]; intros [|b xs]; simpl; try congruence.
  destruct (String.eqb a b) eqn:E; [|discriminate].
  apply String.eqb_eq in E as ->. intros H. f_equal. now apply IH.
Qed.


Lemma lookup_app n p q :
  lookup n (p ++ q) =
  match lookup n p with
  | Some m => lookup m q
  | None => None
  end.
Proof.
  revert n; induction p as [|c p IH]; intros n; simpl; [reflexivity|].
  destruct n as [|es|]; auto. destruct (assoc c es); auto.
Qed.


Lemma lookup_fresh_dirs p : lookup (fresh_dirs p) p = Some (Dir []).
Proof. induction p; simpl; [|rewrite String.eqb_refl]; auto. Qed.

(** *** mkdirs *)

(** [mkdirs] leaves a directory at its path. *)
Lemma mkdirs_lookup n p n' :
  mkdirs n p = Done n' -> exists es, lookup n' p = Some (Dir es).
Proof.
  revert n n'; induction p as [|c p IH]; intros n n' H; simpl in H.
  - destruct n; inversion H; subst; simpl; eauto.
  - destruct n as [|es|]; try discriminate.
    destruct (assoc c es) as [child|] eqn:A.
    + destruct (mkdirs child p) as [child'|] eqn:R; [|discriminate].
      inversion H; subst. simpl. rewrite assoc_set_assoc_eq. eauto.
    + inversion H; subst. simpl.
      rewrite assoc_set_assoc_eq, lookup_fresh_dirs. eauto.
Qed.


(** [mkdirs] never touches a regular file. *)
Lemma mkdirs_keeps_file n p n' q data :
  mkdirs n p = Done n' -> lookup n q = Some (File data) ->
  lookup n' q = Some (File data).
Proof.
  revert n n' q; induction p as [|c p IH]; intros n n' q H Q; simpl in H.
  - destruct n; inversion H; subst; assumption.
  - destruct n as [|es|]; try discriminate.
    destruct q as [|d q]; [discriminate|]. simpl in Q.
    destruct (String.eqb_spec c d) as [->|N].
    + destruct (assoc d es) as [child|] eqn:A; [|discriminate].
      destruct (mkdirs child p) as [child'|] eqn:R; [|discriminate].
      inversion H; subst. simpl. rewrite assoc_set_assoc_eq. eauto.
    + destruct (assoc c es) as [child|] eqn:A.
      * destruct (mkdirs child p) as [child'|] eqn:R; [|discriminate].
        inversion H; subst. simpl. now rewrite assoc_set_assoc_neq.
      * inversion H; subst. simpl. now rewrite assoc_set_assoc_neq.
Qed.

(** On an existing directory [mkdirs] is the identity. *)
Lemma mkdirs_existing n p es :
  lookup n p = Some (Dir es) -> mkdirs n p = Done n.
Proof.
  revert n; induction p as [|c p IH]; intros n H; simpl in *.
  - inversion H; subst. reflexivity.
  - destruct n as [|es0|]; try discriminate.
    destruct (assoc c es0) as [child|] eqn:A; [|discriminate].
    rewrite (IH _ H). now rewrite set_assoc_same.
Qed.

(** [mkdirs] succeeds exactly when only directories are on the way. *)
Lemma mkdirs_total n p :
  only_dirs_on n p = true <-> exists n', mkdirs n p = Done n'.
Proof.
  revert n; induction p as [|c p IH]; intros n; simpl.
  - destruct n; simpl; split; intros H; eauto; try discriminate;
      destruct H as [? H]; discriminate.
  - destruct n as [|es|]; simpl;
      try (split; [discriminate|intros [? H]; discriminate]).
    destruct (assoc c es) as [child|] eqn:A.
    + rewrite IH. split; intros [n' H].
      * rewrite H. eauto.
      * destruct (mkdirs child p); [eauto|discriminate].
    + split; eauto.
Qed.

(** *** create *)

(** After [create] the path holds a regular file with the new bytes. *)
Lemma create_lookup n t d n' :
  create n t d = Done n' -> lookup n' t = Some (File d).
Proof.
  revert n n'; induction t as [|c t IH]; intros n n' H; simpl in H.
  - destruct n; inversion H; subst; reflexivity.
  - destruct n as [|es|]; try discriminate.
    destruct (assoc c es) as [child|] eqn:A.
    + destruct (create child t d) as [child'|] eqn:R; [|discriminate].
      inversion H; subst. simpl. rewrite assoc_set_assoc_eq. eauto.
    + destruct t; [|discriminate].
      inversion H; subst. simpl. now rewrite assoc_set_assoc_eq.
Qed.


(** [create] leaves every other regular file as it is. *)
Lemma create_keeps_file n t d n' q x :
  create n t d = Done n' -> lookup n q = Some (File x) -> q <> t ->
  lookup n' q = Some (File x).
Proof.
  revert n n' q; induction t as [|c t IH]; intros n n' q H L N; simpl in H.
  - destruct n; try discriminate. destruct q; [congruence|discriminate].
  - destruct n as [|es|]; try discriminate.
    destruct q as [|k q]; [discriminate|]. simpl in L.
    destruct (String.eqb_spec c k) as [->|Nk].
    + destruct (assoc k es) as [child|] eqn:A; [|discriminate].
      destruct (create child t d) as [child'|] eqn:R; [|discriminate].
      inversion H; subst. simpl. rewrite assoc_set_assoc_eq.
      apply (IH child); auto. congruence.
    + destruct (assoc c es) as [child|] eqn:A.
      * destruct (create child t d) as [child'|] eqn:R; [|discriminate].
        inversion H; subst. simpl. now rewrite assoc_set_assoc_neq.
      * destruct t; [|discriminate].
        inversion H; subst. simpl. now rewrite assoc_set_assoc_neq.
Qed.

(** [create] leaves every directory a directory. *)
Lemma create_keeps_dir n t d n' q es :
  create n t d = Done n' -> lookup n q = Some (Dir es) ->
  exists es', lookup n' q = Some (Dir es').
Proof.
  revert n n' q es; induction t as [|c t IH]; intros n n' q es H L; simpl in H.
  - destruct n; try discriminate. destruct q; discriminate.
  - destruct n as [|es0|]; try discriminate.
    destruct q as [|k q].
    + destruct (assoc c es0) as [child|].
      * destruct (create child t d); inversion H; subst; simpl; eauto.
      * destruct t; inversion H; subst; simpl; eauto.
    + simpl in L. destruct (String.eqb_spec c k) as [->|Nk].
      * destruct (assoc k es0) as [child|] eqn:A; [|discriminate].
        destruct (create child t d) as [child'|] eqn:R; [|discriminate].
        inversion H; subst. simpl. rewrite assoc_set_assoc_eq. eauto.
      * destruct (assoc c es0) as [child|] eqn:A.
        -- destruct (create child t d) as [child'|] eqn:R; [|discriminate].
           inversion H; subst. simpl. rewrite assoc_set_assoc_neq; eauto.
        -- destruct t; [|discriminate].
           inversion H; subst. simpl. rewrite assoc_set_assoc_neq; eauto.
Qed.


(** A regular file can always be overwritten. *)
Lemma create_over_file n t x d :
  lookup n t = Some (File x) -> exists n', create n t d = Done n'.
Proof.
  revert n; induction t as [|c t IH]; intros n L; simpl in *.
  - inversion L; subst. eauto.
  - destruct n as [|es|]; try discriminate.
    destruct (assoc c es) as [child|] eqn:A; [|discriminate].
    destruct (IH child L) as [child' R]. rewrite R. eauto.
Qed.

(** Only the last of two writes to a path shows. *)
Lemma create_twice n t d1 d2 n1 :
  create n t d1 = Done n1 -> create n1 t d2 = create n t d2.
Proof.
  revert n n1; induction t as [|c t IH]; intros n n1 H; simpl in H.
  - destruct n; inversion H; subst; reflexivity.
  - destruct n as [|es|]; try discriminate.
    destruct (assoc c es) as [child|] eqn:A.
    + destruct (create child t d1) as [child1|] eqn:R; [|discriminate].
      inversion H; subst. simpl. rewrite assoc_set_assoc_eq, A, (IH _ _ R).
      destruct (create child t d2); [|reflexivity].
      now rewrite set_assoc_twice.
    + destruct t; [|discriminate].
      inversion H; subst. simpl. rewrite assoc_set_assoc_eq, A.
      now rewrite set_assoc_twice.
Qed.

(** Creating directories and overwriting a regular file commute. *)
Lemma mkdirs_create_comm n t x b n2 p m :
  lookup n t = Some (File x) -> create n t b = Done n2 -> mkdirs n p = Done m ->
  exists m2, mkdirs n2 p = Done m2 /\ create m t b = Done m2.
Proof.
  revert n t n2 m; induction p as [|c p IH]; intros n t n2 m L C K.
  - simpl in K. destruct n as [|es|]; try discriminate. inversion K; subst.
    destruct t as [|d t]; [discriminate|].
    assert (D : exists es2, n2 = Dir es2).
    { simpl in C. destruct (assoc d es) as [child|].
      - destruct (create child t b); inversion C; eauto.
      - destruct t; inversion C; eauto. }
    destruct D as [es2 ->]. exists (Dir es2). split; [reflexivity|assumption].
  - simpl in K. destruct n as [|es|]; try discriminate.
    destruct t as [|d t]; [discriminate|]. simpl in L, C.
    destruct (assoc d es) as [y|] eqn:Ad; [|discriminate].
    destruct (create y t b) as [y2|] eqn:Cy; [|discriminate].
    inversion C; subst; clear C.
    destruct (String.eqb_spec c d) as [->|N].
    + rewrite Ad in K.
      destruct (mkdirs y p) as [y'|] eqn:Ky; [|discriminate].
      inversion K; subst; clear K.
      destruct (IH _ _ _ _ L Cy Ky) as (m2 & K2 & C2).
      exists (Dir (set_assoc d m2 es)). simpl.
      rewrite !assoc_set_assoc_eq, K2, C2, !set_assoc_twice. auto.
    + simpl. rewrite (assoc_set_assoc_neq _ _ (not_eq_sym N)).
      destruct (assoc c es) as [child|] eqn:Ac.
      * destruct (mkdirs child p) as [child'|] eqn:Kc; [|discriminate].
        inversion K; subst; clear K. simpl.
        rewrite (assoc_set_assoc_neq _ _ N), Ad, Cy.
        eexists; split; [reflexivity|].
        now rewrite (set_assoc_comm _ _ _ N Ad).
      * inversion K; subst; clear K. simpl.
        rewrite (assoc_set_assoc_neq _ _ N), Ad, Cy.
        eexists; split; [reflexivity|].
        now rewrite (set_assoc_comm _ _ _ N Ad).
Qed.

(** *** descendants *)

Lemma assoc_In c es v : assoc c es = Some v -> In (c, v) es.
Proof.
  induction es as [|[k x] es IH]; simpl; [discriminate|].
  destruct (String.eqb_spec k c) as [->|N].
  - intros [= ->]. now left.
  - intros H. right. now apply IH.
Qed.

Lemma descendants_nonempty n rel : In rel (descendants n) -> rel <> [].
Proof.
  destruct n as [|es|]; simpl; try contradiction.
  intros H. apply in_flat_map in H as (e & _ & [<-|H]); [discriminate|].
  apply in_map_iff in H as (r & <- & _). discriminate.
Qed.

(** Whatever a non-empty path leads to is among the descendants. *)
Lemma lookup_descendants n rel x :
  lookup n rel = Some x -> rel <> [] -> In rel (descendants n).
Proof.
  revert n; induction rel as [|c rel IH]; intros n L N; [congruence|].
  simpl in L. destruct n as [|es|]; try discriminate.
  destruct (assoc c es) as [child|] eqn:A; [|discriminate].
  simpl. apply in_flat_map. exists (c, child). split; [now apply assoc_In|].
  simpl. destruct rel as [|k rel]; [now left|].
  right. apply in_map. apply IH; [assumption|discriminate].
Qed.

End FSFacts.

(** ** Paths *)

Module PathFacts.
Import StrFacts FSFacts.

Lemma resolve_below c dir rel :
  resolve_from c (below dir rel) = resolve_from c dir ++ rel.
Proof.
  unfold resolve_from, below; simpl.
  destruct (absolute dir); [reflexivity|apply app_assoc].
Qed.

Lemma div_skill_md dir : div dir "SKILL.md" = below dir ["SKILL.md"%string].
Proof. reflexivity. Qed.

(** A path below [dir] is lexically inside [dir.parent], and what remains
    starts with [dir.name]. *)
Lemma relative_to_below dir rel :
  relative_to (below dir rel) (parent dir)
  = Ok {| absolute := false; parts := name_parts dir ++ rel |}.
Proof.
  unfold relative_to, below, parent, name_parts, name; simpl.
  rewrite Bool.eqb_reflx.
  destruct (parts dir) as [|a l] eqn:E; [reflexivity|].
  rewrite (app_removelast_last EmptyString (l := a :: l)) at 2 by discriminate.
  rewrite <- app_assoc, strip_prefix_app. reflexivity.
Qed.



(** Something that ends in [.skill] is kept as a path component. *)
Lemma keep_segment_skill x : keep_segment (x +++ ".skill") = true.
Proof.
  unfold keep_segment. apply negb_true_iff, orb_false_iff. split.
  - now destruct x.
  - apply String.eqb_neq. intros E.
    destruct x as [|c [|d x]]; simpl in E; discriminate.
Qed.




(** The last segment of a string that ends in [.skill] ends in [.skill]. *)
Lemma segments_skill s cur :
  exists pre x, Str.segments cur (s +++ ".skill") = pre ++ [x +++ ".skill"].
Proof.
  revert cur; induction s as [|c s IH]; intros cur.
  - exists [], cur. simpl. now rewrite !append_assoc.
  - simpl. destruct (Ascii.eqb c "/").
    + destruct (IH EmptyString) as (pre & x & ->). now exists (cur :: pre), x.
    + apply IH.
Qed.

(** The output file is never the metadata file. *)
Lemma output_file_not_skill_md c D s dir :
  resolve_from c (div D (s +++ ".skill")) <> resolve_from c (div dir "SKILL.md").
Proof.
  destruct (segments_skill s EmptyString) as (pre & x & S).
  assert (P : exists l, parts (of_string (s +++ ".skill")) = l ++ [x +++ ".skill"]).
  { unfold of_string; simpl. rewrite S, filter_app. simpl.
    rewrite keep_segment_skill. eauto. }
  destruct P as [l P].
  assert (L : exists l', resolve_from c (div D (s +++ ".skill"))
                         = l' ++ [x +++ ".skill"]).
  { unfold div, joinpath, resolve_from.
    destruct (absolute (of_string (s +++ ".skill"))) eqn:A.
    - rewrite A, P. eauto.
    - cbn [absolute parts]. rewrite P. destruct (absolute D).
      + exists (parts D ++ l). now rewrite app_assoc.
      + exists (c ++ parts D ++ l). now rewrite !app_assoc. }
  destruct L as [l' L]. rewrite L, div_skill_md, resolve_below.
  intros E. apply app_inj_tail in E as [_ E].
  pose proof (f_equal String.length E) as Len.
  rewrite length_append in Len. simpl in Len.
  destruct x as [|a [|b [|d x]]]; simpl in E, Len; try discriminate; lia.
Qed.

End PathFacts.

Import StrFacts FSFacts PathFacts.

(** The pure library functions stay folded while the script is stepped. *)
Arguments Str.startswith : simpl never.
Arguments Str.split : simpl never.
Arguments Str.decode_text : simpl never.
Arguments Py.contains : simpl never.
Arguments Py.truthy : simpl never.
Arguments Py.getitem : simpl never.
Arguments Nat.ltb : simpl never.
Arguments Nat.leb : simpl never.
Arguments nth : simpl never.
Arguments nth_error : simpl never.
Arguments div : simpl never.
Arguments String.append : simpl never.
Arguments relative_to : simpl never.
Arguments to_str : simpl never.

Arguments write_archive : simpl never.
Arguments validate_skill : simpl never.
Arguments package_skill : simpl never.

(** ** Running the script *)

Ltac unfold_monad :=
  repeat (progress unfold read_text, read_bytes, index, lift, bind, ret, raise,
    print, path_exists, is_dir, is_file, path_cwd, sys_exit, try_except,
    yaml_safe_load in * ).

Ltac case_step :=
  match goal with
  | H : context [match ?x with _ => _ end] |- _ => destruct x eqn:?
  | |- context [match ?x with _ => _ end] => destruct x eqn:?
  | H : context [if ?x then _ else _] |- _ => destruct x eqn:?
  | |- context [if ?x then _ else _] => destruct x eqn:?
  end.

Ltac tidy :=
  repeat match goal with
         | H : (_, _) = (_, _) |- _ => inversion H; clear H; subst
         | H1 : ?x = Some _, H2 : ?x = Some _ |- _ => rewrite H1 in H2
         | H1 : ?x = Loaded _, H2 : ?x = _ |- _ => rewrite H1 in H2
         | H1 : ?x = Ok _, H2 : ?x = _ |- _ => rewrite H1 in H2
         | H : Some _ = Some _ |- _ => inversion H; clear H; subst
         | H : Ok _ = Ok _ |- _ => inversion H; clear H; subst
         | H : Loaded _ = Loaded _ |- _ => inversion H; clear H; subst
         | H : negb _ = false |- _ => apply negb_false_iff in H
         | H : negb _ = true |- _ => apply negb_true_iff in H
         | H : _ && _ = true |- _ => apply andb_true_iff in H; destruct H
         | H : _ && _ = false |- _ => apply andb_false_iff in H; destruct H
         | H : (_ <? _)%nat = false |- _ => apply Nat.ltb_ge in H
         | H : (_ <? _)%nat = true |- _ => apply Nat.ltb_lt in H
         | H : (_ <=? _)%nat = false |- _ => apply Nat.leb_gt in H
         | H : (_ <=? _)%nat = true |- _ => apply Nat.leb_le in H
         end.

Section RunFacts.
Variable safe_load : string -> load_result.
Variable py_repr : pyval -> string.
Variable zip_partial : list entry -> string.
Variable zip_final : list entry -> string.

Lemma bind_eq {A B} (c : M A) (k : A -> M B) w :
  bind c k w =
  match c w with
  | (Ret a, w') => k a w'
  | (Raise e, w') => (Raise e, w')
  | (SysExit n, w') => (SysExit n, w')
  end.
Proof. reflexivity. Qed.

Lemma world_eta w :
  {| fs := fs w; cwd := cwd w; stdout := stdout w; zf_entries := zf_entries w |} = w.
Proof. now destruct w. Qed.

Lemma validate_skill_true_iff (skill_dir : Path) (w w' : world) :
  validate_skill safe_load skill_dir w = (Ret true, w') <->
  w' = w /\
  exists m, parsed_metadata safe_load w skill_dir = Some m /\ truthy m = true /\
            Py.contains "name" m = Ok true /\
            Py.contains "description" m = Ok true.
Proof.
  unfold validate_skill, parsed_metadata. unfold_monad.
  split.
  - intros H.
    repeat (case_step; cbn in *; try discriminate; tidy; try congruence);
      try lia; eauto 10.
  - intros (-> & m & H & T & Cn & Cd).
    repeat (case_step; cbn in *; try discriminate; tidy; try congruence);
      try lia.
Qed.

Lemma validate_skill_frame (skill_dir : Path) (w w' : world) r :
  validate_skill safe_load skill_dir w = (r, w') ->
  fs w' = fs w /\ cwd w' = cwd w /\ zf_entries w' = zf_entries w /\
  (forall n, r <> SysExit n).
Proof.
  unfold validate_skill. unfold_monad. intros H.
  repeat (case_step; cbn in *; try discriminate; tidy); 
    repeat split; try reflexivity; intros; discriminate.
Qed.

Lemma validate_skill_stdout (skill_dir : Path) (w : world) o :
  fst (validate_skill safe_load skill_dir (set_stdout w o))
  = fst (validate_skill safe_load skill_dir w).
Proof.
  unfold validate_skill. unfold_monad. unfold stat, resolve, set_stdout. cbn.
  repeat (case_step; cbn in *; try discriminate; tidy; try congruence);
    try lia; cbn; congruence.
Qed.

Lemma arc_of_below dir rel :
  arc_of (parent dir) (below dir rel)
  = {| absolute := false; parts := name_parts dir ++ rel |}.
Proof. unfold arc_of. now rewrite relative_to_below. Qed.

(** The loop adds one member per regular file and never fails. *)
Lemma archive_loop zf dir paths : forall w,
  (forall p, In p paths -> exists rel, p = below dir rel) ->
  for_each paths (add_member zip_partial zf dir) w =
  (Ret tt,
   let new := collect zip_partial (fs w) (cwd w) (resolve w zf) (parent dir)
                (zf_entries w) paths in
   {| fs := fs w; cwd := cwd w;
      stdout := stdout w ++ map added_line new;
      zf_entries := zf_entries w ++ new |}).
Proof.
  induction paths as [|p rest IH]; intros w Hp; cbn [for_each collect].
  - unfold ret. cbn. now rewrite !app_nil_r, world_eta.
  - destruct (Hp p (or_introl eq_refl)) as [rel ->].
    assert (Hrest : forall q, In q rest -> exists r, q = below dir r)
      by (intros q Hq; apply Hp; now right).
    unfold bind at 1, add_member. unfold_monad. unfold zf_write, read_bytes, stat, resolve.
    destruct (FS.lookup (fs w) (resolve_from (cwd w) (below dir rel)))
      as [[data|es|]|] eqn:L; cbn [FS.is_file_node].
    + rewrite relative_to_below, L. cbn [set_stdout set_zf_entries fs cwd stdout zf_entries].
      rewrite IH by assumption.
      cbn [set_stdout set_zf_entries fs cwd stdout zf_entries resolve map].
      rewrite arc_of_below. unfold added_line at 1. cbn [fst].
      now rewrite <- !app_assoc.
    + now rewrite IH.
    + now rewrite IH.
    + now rewrite IH.
Qed.

Lemma walked_below t c dir p :
  In p (walked t c dir) -> exists rel, p = below dir rel.
Proof.
  unfold walked. destruct (FS.lookup t (resolve_from c dir)); [|contradiction].
  intros H. apply in_map_iff in H as (rel & <- & _). eauto.
Qed.

(** Every way [write_archive] can go. *)
Lemma write_archive_cases v dir D w :
  let target := div D (format_value py_repr v +++ ".skill") in
  match FS.mkdirs (fs w) (resolve w D) with
  | FS.Errno c =>
      write_archive py_repr zip_partial zip_final v dir D w
      = (Raise (os_error c D), w)
  | FS.Done t1 =>
      match FS.create t1 (resolve w target) EmptyString with
      | FS.Errno c =>
          write_archive py_repr zip_partial zip_final v dir D w
          = (Raise (os_error c target), set_fs w t1)
      | FS.Done t2 =>
          let ms := members zip_partial t2 (cwd w) dir target in
          exists t3,
            FS.create t2 (resolve w target) (zip_final ms) = FS.Done t3 /\
            write_archive py_repr zip_partial zip_final v dir D w
            = (Ret target,
               {| fs := t3; cwd := cwd w;
                  stdout := stdout w ++ map added_line ms;
                  zf_entries := ms |})
      end
  end.
Proof.
  intros target. unfold resolve.
  destruct (FS.mkdirs (fs w) (resolve_from (cwd w) D)) as [t1|c] eqn:K.
  2: { unfold write_archive, mkdir_parents_exist_ok, resolve. unfold bind at 1.
       now rewrite K. }
  destruct (FS.create t1 (resolve_from (cwd w) target) EmptyString)
    as [t2|c] eqn:C.
  2: { unfold write_archive, mkdir_parents_exist_ok, resolve. unfold bind at 1.
       rewrite K. unfold bind at 1, ZipFile_w, resolve. fold target.
       cbn [fs set_fs cwd]. now rewrite C. }
  destruct (@create_over_file _ _ _
              (zip_final (members zip_partial t2 (cwd w) dir target))
              (@create_lookup _ _ _ _ C)) as [t3 C3].
  exists t3. split; [exact C3|].
  unfold write_archive, mkdir_parents_exist_ok, resolve. unfold bind at 1.
  rewrite K. unfold bind at 1, ZipFile_w, resolve. fold target.
  cbn [fs set_fs cwd]. rewrite C.
  unfold bind at 1, finally, bind at 1, rglob, stat, resolve.
  cbn [fs set_fs set_zf_entries cwd].
  unfold members, walked in *.
  destruct (FS.lookup t2 (resolve_from (cwd w) dir)) as [n|] eqn:L;
    (rewrite archive_loop;
     [| intros p Hp; try contradiction;
        apply in_map_iff in Hp as (rel & <- & _); eauto]);
    unfold zf_close, resolve;
    cbn [fs set_fs set_zf_entries cwd stdout zf_entries app];
    rewrite C3; reflexivity.
Qed.

(** [package_skill] is [write_archive] on the name it finds, and raises
    when it finds none. *)
Lemma package_skill_cases dir D w :
  match skill_name_of safe_load w dir with
  | Some v =>
      package_skill safe_load py_repr zip_partial zip_final dir D w
      = write_archive py_repr zip_partial zip_final v dir D w
  | None =>
      exists e,
        package_skill safe_load py_repr zip_partial zip_final dir D w
        = (Raise e, w)
  end.
Proof.
  unfold package_skill, skill_name_of. unfold_monad.
  repeat (case_step; cbn in *; try discriminate; tidy; try congruence);
    eauto.
Qed.


Lemma write_archive_stdout v dir D w o :
  fst (write_archive py_repr zip_partial zip_final v dir D (set_stdout w o))
  = fst (write_archive py_repr zip_partial zip_final v dir D w).
Proof.
  pose proof (write_archive_cases v dir D w) as H.
  pose proof (write_archive_cases v dir D (set_stdout w o)) as H'.
  cbv zeta in H, H'. unfold resolve in *. cbn [fs cwd set_stdout] in H'.
  destruct (FS.mkdirs (fs w) (resolve_from (cwd w) D)); [|now rewrite H, H'].
  destruct (FS.create _ _ _); [|now rewrite H, H'].
  destruct H as (t3 & _ & ->). destruct H' as (t3' & _ & ->). reflexivity.
Qed.

(** Every way [main] can go. *)
Lemma main_with_cases package dir oarg w :
  let D := output_dir_of w oarg in
  main_with safe_load package dir oarg w =
  if negb (FS.is_some_node (stat w dir)) then
    (SysExit 1,
     set_stdout w (stdout w ++ ["❌ Error: Skill directory not found: "
                                +++ to_str dir]))
  else if negb (FS.is_dir_node (stat w dir)) then
    (SysExit 1,
     set_stdout w (stdout w ++ ["❌ Error: Not a directory: " +++ to_str dir]))
  else
    match validate_skill safe_load dir (at_validation w dir D) with
    | (Ret true, _) =>
        match package dir D (at_packaging w dir D) with
        | (Ret p, w3) =>
            (Ret tt,
             set_stdout w3
               (stdout w3 ++ [LF +++ "✅ Successfully packaged skill to: "
                              +++ to_str p]))
        | (Raise e, w3) =>
            (SysExit 1,
             set_stdout w3
               (stdout w3 ++ [LF +++ "❌ Error packaging skill: "
                              +++ exn_str e]))
        | (SysExit n, w3) => (SysExit n, w3)
        end
    | (Ret false, w1) => (SysExit 1, w1)
    | (Raise e, w1) => (Raise e, w1)
    | (SysExit n, w1) => (SysExit n, w1)
    end.
Proof.
  intros D. unfold main_with.
  rewrite bind_eq. unfold path_cwd at 1. cbv beta iota.
  fold (output_dir_of w oarg). fold D.
  rewrite bind_eq. unfold path_exists at 1. cbv beta iota.
  destruct (FS.is_some_node (stat w dir)); cbn [negb].
  2: { rewrite bind_eq. reflexivity. }
  rewrite bind_eq. unfold is_dir at 1. cbv beta iota.
  destruct (FS.is_dir_node (stat w dir)); cbn [negb].
  2: { rewrite bind_eq. reflexivity. }
  do 3 (rewrite bind_eq; unfold print at 1; cbv beta iota).
  rewrite bind_eq.
  match goal with
  | |- context [validate_skill safe_load dir ?w0] =>
      replace w0 with (at_validation w dir D)
        by (unfold at_validation, set_stdout;
            cbn [fs cwd stdout zf_entries]; now rewrite <- !app_assoc)
  end.
  destruct (validate_skill safe_load dir (at_validation w dir D))
    as [[[|]| |] w1] eqn:V; cbn [negb]; try reflexivity.
  apply validate_skill_true_iff in V as [-> _].
  rewrite bind_eq. unfold print at 1. cbv beta iota.
  fold (at_packaging w dir D). unfold try_except. rewrite bind_eq.
  destruct (package dir D (at_packaging w dir D)) as [[p|e|n] w3];
    reflexivity.
Qed.

End RunFacts.

(** ** What package_skill does, step by step, and the claims *)

Section Claims.
Variable safe_load : string -> load_result.
Variable py_repr : pyval -> string.
Variable zip_partial : list entry -> string.
Variable zip_final : list entry -> string.

(** On metadata the validator got to examine, [package_skill] looks the
    name up and goes on to write the archive. *)
Lemma package_skill_parsed w dir D m :
  parsed_metadata safe_load w dir = Some m ->
  package_skill safe_load py_repr zip_partial zip_final dir D w
  = (skill_name <- lift (getitem m "name") ;;
     write_archive py_repr zip_partial zip_final skill_name dir D) w.
Proof.
  unfold parsed_metadata. intros H.
  destruct (stat w (div dir "SKILL.md")) as [[bytes| |]|] eqn:S;
    try discriminate.
  destruct (Str.decode_text bytes) as [content|] eqn:Dc; try discriminate.
  destruct (Str.startswith content "---" &&
            (3 <=? length (Str.split "---" content 2))%nat) eqn:G;
    [|discriminate].
  apply andb_true_iff in G as [_ G]. apply Nat.leb_le in G.
  destruct (split_three _ _ G) as (a & b & c & E & _). rewrite E in H.
  unfold nth in H. destruct (safe_load b) eqn:L; [|discriminate].
  injection H as ->.
  unfold package_skill, read_text, read_bytes, index, yaml_safe_load.
  rewrite !bind_eq, S, Dc. unfold ret at 1. rewrite E. unfold nth_error.
  unfold ret at 1. cbv beta iota. rewrite !bind_eq, L. reflexivity.
Qed.

(** A key that [in] finds in a [dict] has a value. *)
Lemma dict_get_contains k items :
  Py.contains k (PyDict items) = Ok true ->
  exists v, dict_get k items = Some v.
Proof.
  unfold Py.contains. intros [= H].
  induction items as [|[key v] items IH]; simpl in *; [discriminate|].
  destruct (is_str k key); eauto.
Qed.

(** What [write_archive] returns is the output path it computed. *)
Lemma write_archive_returns v dir D w p w' :
  write_archive py_repr zip_partial zip_final v dir D w = (Ret p, w') ->
  p = div D (format_value py_repr v +++ ".skill").
Proof.
  pose proof (write_archive_cases py_repr zip_partial zip_final v dir D w) as H.
  cbv zeta in H.
  destruct (FS.mkdirs (fs w) (resolve w D)); [|rewrite H; discriminate].
  destruct (FS.create _ _ _); [|rewrite H; discriminate].
  destruct H as (t3 & _ & ->). now intros [= <- _].
Qed.


(** When every step succeeds, [package_skill] returns. *)
Lemma package_skill_intro dir D w v t1 t2 :
  let target := div D (format_value py_repr v +++ ".skill") in
  skill_name_of safe_load w dir = Some v ->
  FS.mkdirs (fs w) (resolve w D) = FS.Done t1 ->
  FS.create t1 (resolve w target) EmptyString = FS.Done t2 ->
  exists t3,
    FS.create t2 (resolve w target)
      (zip_final (members zip_partial t2 (cwd w) dir target)) = FS.Done t3 /\
    package_skill safe_load py_repr zip_partial zip_final dir D w
    = (Ret target,
       packaged w t3 (members zip_partial t2 (cwd w) dir target)).
Proof.
  intros target N K C.
  pose proof (package_skill_cases safe_load py_repr zip_partial zip_final
                dir D w) as H.
  rewrite N in H. rewrite H.
  pose proof (write_archive_cases py_repr zip_partial zip_final v dir D w) as W.
  cbv zeta in W. fold target in W. rewrite K, C in W. exact W.
Qed.

(** When [package_skill] returns, every step succeeded. *)
Lemma package_skill_inv dir D w p w' :
  package_skill safe_load py_repr zip_partial zip_final dir D w = (Ret p, w') ->
  exists v t1 t2 t3,
    skill_name_of safe_load w dir = Some v /\
    p = div D (format_value py_repr v +++ ".skill") /\
    FS.mkdirs (fs w) (resolve w D) = FS.Done t1 /\
    FS.create t1 (resolve w p) EmptyString = FS.Done t2 /\
    FS.create t2 (resolve w p)
      (zip_final (members zip_partial t2 (cwd w) dir p)) = FS.Done t3 /\
    w' = packaged w t3 (members zip_partial t2 (cwd w) dir p).
Proof.
  intros R.
  pose proof (package_skill_cases safe_load py_repr zip_partial zip_final
                dir D w) as H.
  destruct (skill_name_of safe_load w dir) as [v|] eqn:N.
  2: { destruct H as [e H]. congruence. }
  rewrite H in R.
  pose proof (write_archive_cases py_repr zip_partial zip_final v dir D w) as W.
  cbv zeta in W.
  destruct (FS.mkdirs (fs w) (resolve w D)) as [t1|] eqn:K; [|congruence].
  destruct (FS.create t1 _ EmptyString) as [t2|] eqn:C; [|congruence].
  destruct W as (t3 & C3 & W). rewrite W in R. injection R as <- <-.
  exists v, t1, t2, t3. auto 10.
Qed.



(** The name depends on the metadata file alone. *)
Lemma skill_name_of_ext w w' dir :
  stat w' (div dir "SKILL.md") = stat w (div dir "SKILL.md") ->
  skill_name_of safe_load w' dir = skill_name_of safe_load w dir.
Proof. unfold skill_name_of. now intros ->. Qed.

Lemma skill_name_of_file w dir v :
  skill_name_of safe_load w dir = Some v ->
  exists bytes, stat w (div dir "SKILL.md") = Some (FS.File bytes).
Proof.
  unfold skill_name_of.
  destruct (stat w (div dir "SKILL.md")) as [[bytes| |]|]; try discriminate.
  eauto.
Qed.

(* ------------------------------------------------------------------ *)
(** ** The claims *)

(** C1, at the inputs where the code departs from it.  The claim has
    [validate_skill] return [True] or [False] on every metadata file.  When
    the block parses to a value that is truthy but supports no membership
    test (an integer, a boolean, a float, bytes, a date), the test
    ["name" not in metadata] raises [TypeError], and [validate_skill] returns
    neither: the exception leaves the function. *)
Theorem validate_skill_raises_on_scalar (skill_dir : Path) (w : world)
    (m : pyval) (e : exn) :
  parsed_metadata safe_load w skill_dir = Some m ->
  truthy m = true ->
  Py.contains "name" m = Err e ->
  validate_skill safe_load skill_dir w = (Raise e, w).
Proof.
  unfold validate_skill, parsed_metadata. unfold_monad. intros H T C.
  repeat (case_step; cbn in *; try discriminate; tidy; try congruence);
    try lia.
Qed.

(** C2, at the inputs where the code departs from it.  The claim has every
    block that does not parse to a mapping rejected.  A block that parses
    to a plain string in which the words [name] and [description] occur
    passes every check, the two membership tests being substring tests on
    a string, and [validate_skill] returns [True]. *)
Theorem validate_skill_accepts_plain_string (skill_dir : Path) (w : world)
    (s : string) :
  parsed_metadata safe_load w skill_dir = Some (PyStr s) ->
  Str.contains "name" s = true ->
  Str.contains "description" s = true ->
  validate_skill safe_load skill_dir w = (Ret true, w).
Proof.
  intros H N D. apply validate_skill_true_iff. split; [reflexivity|].
  exists (PyStr s). repeat split; auto.
  - unfold truthy. destruct s; [discriminate|reflexivity].
  - unfold Py.contains. now rewrite N.
  - unfold Py.contains. now rewrite D.
Qed.


(** C4.  When [validate_skill] returns [True], [package_skill] run on the
    same files looks the name up in the very metadata the validator
    examined: the block between the first two delimiters of the same
    content, parsed by the same parser.  For a mapping, the value found is
    the one bound to the key whose presence was checked, and any path
    [package_skill] returns is [output_dir / f"{name}.skill"] for it. *)
Theorem package_name_is_validated_name (skill_dir output_dir : Path)
    (w w' : world) :
  validate_skill safe_load skill_dir w = (Ret true, w') ->
  exists m,
    parsed_metadata safe_load w skill_dir = Some m /\
    Py.contains "name" m = Ok true /\
    package_skill safe_load py_repr zip_partial zip_final
      skill_dir output_dir w'
    = (skill_name <- lift (getitem m "name") ;;
       write_archive py_repr zip_partial zip_final
         skill_name skill_dir output_dir) w' /\
    forall items, m = PyDict items ->
      exists v,
        dict_get "name" items = Some v /\
        package_skill safe_load py_repr zip_partial zip_final
          skill_dir output_dir w'
        = write_archive py_repr zip_partial zip_final
            v skill_dir output_dir w' /\
        forall p w'',
          package_skill safe_load py_repr zip_partial zip_final
            skill_dir output_dir w' = (Ret p, w'') ->
          p = div output_dir (format_value py_repr v +++ ".skill").
Proof.
  intros V. apply validate_skill_true_iff in V as (-> & m & P & _ & C & _).
  exists m. repeat split; auto using package_skill_parsed.
  intros items ->. destruct (@dict_get_contains _ _ C) as [v G].
  exists v. rewrite (@package_skill_parsed _ _ output_dir _ P).
  assert (E : (skill_name <- lift (getitem (PyDict items) "name") ;;
               write_archive py_repr zip_partial zip_final
                 skill_name skill_dir output_dir) w
              = write_archive py_repr zip_partial zip_final
                  v skill_dir output_dir w).
  { rewrite bind_eq. unfold getitem. now rewrite G. }
  rewrite E. repeat split; auto. intros p w''. apply write_archive_returns.
Qed.

(** C5.  When [validate_skill] returns [False], [main] ends in
    [sys.exit(1)], whatever the archiver is (it is never called), and the
    file tree and the archive object are as they were: nothing is created
    or written. *)
Theorem failed_validation_skips_packaging (skill_dir : Path)
    (output_arg : option Path) (w : world) :
  fst (validate_skill safe_load skill_dir w) = Ret false ->
  let run := main safe_load py_repr zip_partial zip_final
               skill_dir output_arg w in
  (forall package,
     main_with safe_load package skill_dir output_arg w = run) /\
  fst run = SysExit 1 /\
  exit_status (fst run) = 1%Z /\
  fs (snd run) = fs w /\
  zf_entries (snd run) = zf_entries w.
Proof.
  intros V run. subst run.
  pose proof (validate_skill_stdout safe_load skill_dir w
                (stdout (at_validation w skill_dir
                           (output_dir_of w output_arg)))) as S.
  rewrite V in S.
  change (set_stdout w _)
    with (at_validation w skill_dir (output_dir_of w output_arg)) in S.
  destruct (validate_skill safe_load skill_dir
              (at_validation w skill_dir (output_dir_of w output_arg)))
    as [r w1] eqn:E.
  simpl in S. subst r.
  destruct (validate_skill_frame _ _ _ E) as (F & _ & Z & _).
  assert (M : exists w', forall package,
             main_with safe_load package skill_dir output_arg w
             = (SysExit 1, w') /\ fs w' = fs w /\ zf_entries w' = zf_entries w).
  { destruct (FS.is_some_node (stat w skill_dir)) eqn:X;
      [destruct (FS.is_dir_node (stat w skill_dir)) eqn:Y|].
    - exists w1. intros package.
      rewrite main_with_cases, X, Y. cbv zeta. cbn [negb]. rewrite E. auto.
    - eexists. intros package.
      rewrite main_with_cases, X, Y. cbn [negb]. split; [reflexivity|auto].
    - eexists. intros package.
      rewrite main_with_cases, X. cbn [negb]. split; [reflexivity|auto]. }
  destruct M as [w' M]. unfold main.
  destruct (M (package_skill safe_load py_repr zip_partial zip_final))
    as (R & A & B).
  rewrite R. cbn [fst snd exit_status]. repeat split; auto.
  intros package. apply M.
Qed.



(** C8.  After a run of [package_skill] that returned, a second run on the
    state it left returns the same path and leaves the same file tree and
    the same members: the first archive is replaced, not added to.  And
    whatever bytes a prior archive at the output path holds, the run
    returns the same path and ends in the same state: the file is
    truncated when it is opened, before anything is read. *)
Theorem package_skill_overwrites_prior_archive (skill_dir output_dir : Path)
    (w : world) (p : Path) (w1 : world) :
  package_skill safe_load py_repr zip_partial zip_final skill_dir output_dir w
  = (Ret p, w1) ->
  (exists w2,
     package_skill safe_load py_repr zip_partial zip_final
       skill_dir output_dir w1 = (Ret p, w2) /\
     fs w2 = fs w1 /\ zf_entries w2 = zf_entries w1) /\
  (forall old prior t',
     stat w p = Some (FS.File old) ->
     FS.create (fs w) (resolve w p) prior = FS.Done t' ->
     package_skill safe_load py_repr zip_partial zip_final
       skill_dir output_dir (set_fs w t') = (Ret p, w1)).
Proof.
  intros R.
  destruct (@package_skill_inv _ _ _ _ _ R)
    as (v & t1 & t2 & t3 & N & -> & K & C & C3 & ->).
  set (target := div output_dir (format_value py_repr v +++ ".skill")) in *.
  set (ms := members zip_partial t2 (cwd w) skill_dir target) in *.
  destruct (@skill_name_of_file _ _ _ N) as [bytes S].
  assert (NE : resolve_from (cwd w) (div skill_dir "SKILL.md")
               <> resolve_from (cwd w) target).
  { intros E. symmetry in E. revert E. apply output_file_not_skill_md. }
  unfold stat, resolve in *.
  split.
  - (* a second run *)
    assert (S3 : FS.lookup t3 (resolve_from (cwd w) (div skill_dir "SKILL.md"))
                 = Some (FS.File bytes)).
    { apply (@create_keeps_file _ _ _ _ _ _ C3); [|exact NE].
      apply (@create_keeps_file _ _ _ _ _ _ C); [|exact NE].
      apply (@mkdirs_keeps_file _ _ _ _ _ K S). }
    assert (N3 : skill_name_of safe_load (packaged w t3 ms) skill_dir = Some v).
    { rewrite <- N. apply skill_name_of_ext. unfold stat, resolve, packaged.
      cbn [fs cwd]. now rewrite S3, S. }
    destruct (@mkdirs_lookup _ _ _ K) as [es L1].
    destruct (@create_keeps_dir _ _ _ _ _ _ C L1) as [es2 L2].
    destruct (@create_keeps_dir _ _ _ _ _ _ C3 L2) as [es3 L3].
    assert (C' : FS.create t3 (resolve_from (cwd w) target) EmptyString
                 = FS.Done t2).
    { rewrite (@create_twice _ _ _ EmptyString _ C3). rewrite <- C.
      apply (@create_twice _ _ _ _ _ C). }
    destruct (@package_skill_intro skill_dir output_dir (packaged w t3 ms)
                v t3 t2 N3 (@mkdirs_existing _ _ _ L3) C') as (t3' & C3' & R').
    fold target in C3', R'. unfold resolve, packaged in C3'.
    cbn [fs cwd] in C3'. fold ms in C3'. rewrite C3 in C3'.
    injection C3' as <-.
    eexists. split; [exact R'|]. split; reflexivity.
  - (* another prior archive *)
    intros old prior t' O P.
    assert (S' : FS.lookup t' (resolve_from (cwd w) (div skill_dir "SKILL.md"))
                 = Some (FS.File bytes))
      by (apply (@create_keeps_file _ _ _ _ _ _ P S NE)).
    assert (N' : skill_name_of safe_load (set_fs w t') skill_dir = Some v).
    { rewrite <- N. apply skill_name_of_ext. unfold stat, resolve, set_fs.
      cbn [fs cwd]. now rewrite S', S. }
    destruct (@mkdirs_create_comm _ _ _ _ _ _ _ O P K) as (m2 & K' & P').
    assert (C' : FS.create m2 (resolve_from (cwd w) target) EmptyString
                 = FS.Done t2)
      by (rewrite (@create_twice _ _ _ EmptyString _ P'); exact C).
    destruct (@package_skill_intro skill_dir output_dir (set_fs w t')
                v m2 t2 N' K' C') as (t3' & C3' & R').
    fold target in C3', R'. unfold resolve, set_fs in C3'.
    cbn [fs cwd] in C3'. fold ms in C3'. rewrite C3 in C3'.
    injection C3' as <-. exact R'.
Qed.

(** C9, at the inputs where the code departs from it.  The claim has the
    lookup [metadata["name"]] succeed whenever the validator accepted the
    file.  When the accepted metadata is not a mapping (a string or a list
    of strings passes the membership tests), [package_skill] raises
    [TypeError] at the lookup. *)
Theorem accepted_non_mapping_breaks_package_skill (skill_dir output_dir : Path)
    (w : world) (m : pyval) :
  validate_skill safe_load skill_dir w = (Ret true, w) ->
  parsed_metadata safe_load w skill_dir = Some m ->
  is_dict m = false ->
  exists msg,
    package_skill safe_load py_repr zip_partial zip_final
      skill_dir output_dir w
    = (Raise (Exn TypeError msg), w).
Proof.
  intros _ P N. rewrite (@package_skill_parsed _ _ output_dir _ P).
  destruct m; try discriminate; rewrite bind_eq; unfold getitem, lift, raise;
    eauto.
Qed.

(** C10.  The start check passes on every content whose first three
    characters are [---].  For content that is [---], any text [block] in
    which no delimiter starts, [---] again, and any text [rest]: the parts
    are the empty string, [block] and [rest], and the metadata is the parse
    of [block].  Neither delimiter has to be a line of its own:
    [block] need not begin and [rest] need not begin with a line break.
    When the parse of [block] passes the checks on the metadata,
    [validate_skill] returns [True]. *)
Theorem frontmatter_is_not_line_anchored (skill_dir : Path) (w : world)
    (bytes block rest : string) :
  stat w (div skill_dir "SKILL.md") = Some (FS.File bytes) ->
  Str.decode_text bytes = Some ("---" +++ block +++ "---" +++ rest) ->
  Str.partition "---" (block +++ "--") = None ->
  (forall text, Str.startswith ("---" +++ text) "---" = true) /\
  Str.split "---" ("---" +++ block +++ "---" +++ rest) 2
  = [EmptyString; block; rest] /\
  parsed_metadata safe_load w skill_dir
  = match safe_load block with
    | Loaded m => Some m
    | ParseError _ => None
    end /\
  forall m, safe_load block = Loaded m ->
    truthy m = true ->
    Py.contains "name" m = Ok true ->
    Py.contains "description" m = Ok true ->
    validate_skill safe_load skill_dir w = (Ret true, w).
Proof.
  intros S D N.
  assert (P : parsed_metadata safe_load w skill_dir
              = match safe_load block with
                | Loaded m => Some m
                | ParseError _ => None
                end).
  { unfold parsed_metadata. rewrite S, D, (split_frontmatter _ _ N).
    now rewrite startswith_append. }
  repeat split; auto using startswith_append, split_frontmatter.
  intros m L T Cn Cd. apply validate_skill_true_iff. split; [reflexivity|].
  exists m. rewrite P, L. auto.
Qed.

End Claims.

(** ** Instances on the sample data *)

Lemma validate_skill_raises_on_scalar_witness :
  validate_skill Sample.pyyaml Sample.demo (Sample.world_with Sample.doc_int)
  = (Raise (Exn TypeError "argument of type 'int' is not iterable"),
     Sample.world_with Sample.doc_int).
Proof.
  apply (@validate_skill_raises_on_scalar Sample.pyyaml Sample.demo
           (Sample.world_with Sample.doc_int) (PyInt 42));
    vm_compute; reflexivity.
Defined.

Lemma validate_skill_accepts_plain_string_witness :
  validate_skill Sample.pyyaml Sample.demo
    (Sample.world_with Sample.doc_scalar)
  = (Ret true, Sample.world_with Sample.doc_scalar).
Proof.
  apply (@validate_skill_accepts_plain_string Sample.pyyaml Sample.demo
           (Sample.world_with Sample.doc_scalar) "name description");
    vm_compute; reflexivity.
Defined.

Lemma accepted_non_mapping_breaks_package_skill_witness :
  exists msg,
    package_skill Sample.pyyaml Sample.repr Sample.zip_partial Sample.zip_final
      Sample.demo Sample.out (Sample.world_with Sample.doc_scalar)
    = (Raise (Exn TypeError msg), Sample.world_with Sample.doc_scalar).
Proof.
  apply (@accepted_non_mapping_breaks_package_skill Sample.pyyaml Sample.repr
           Sample.zip_partial Sample.zip_final Sample.demo Sample.out
           (Sample.world_with Sample.doc_scalar) (PyStr "name description"));
    vm_compute; reflexivity.
Defined.

Lemma package_name_is_validated_name_witness :
  exists m,
    parsed_metadata Sample.pyyaml (Sample.world_with Sample.doc_valid)
      Sample.demo = Some m /\
    Py.contains "name" m = Ok true /\
    forall items, m = PyDict items ->
      exists v,
        dict_get "name" items = Some v /\
        package_skill Sample.pyyaml Sample.repr Sample.zip_partial
          Sample.zip_final Sample.demo Sample.out
          (Sample.world_with Sample.doc_valid)
        = write_archive Sample.repr Sample.zip_partial Sample.zip_final
            v Sample.demo Sample.out (Sample.world_with Sample.doc_valid).
Proof.
  destruct (@package_name_is_validated_name Sample.pyyaml Sample.repr
              Sample.zip_partial Sample.zip_final Sample.demo Sample.out
              (Sample.world_with Sample.doc_valid)
              (Sample.world_with Sample.doc_valid))
    as (m & P & C & _ & D); [vm_compute; reflexivity|].
  exists m. repeat split; try assumption.
  intros items E. destruct (D items E) as (v & G & R & _). eauto.
Defined.

Lemma frontmatter_is_not_line_anchored_witness :
  validate_skill Sample.pyyaml Sample.demo
    (Sample.world_with Sample.doc_inline)
  = (Ret true, Sample.world_with Sample.doc_inline).
Proof.
  apply (proj2 (proj2 (proj2
           (@frontmatter_is_not_line_anchored Sample.pyyaml Sample.demo
              (Sample.world_with Sample.doc_inline) Sample.doc_inline
              ("name: x" +++ LF +++ "description: y") "trailing"
              eq_refl eq_refl eq_refl)))
           (PyDict [(PyStr "name", PyStr "x");
                    (PyStr "description", PyStr "y")]));
    vm_compute; reflexivity.
Defined.

Lemma failed_validation_skips_packaging_witness :
  exit_status
    (fst (main Sample.pyyaml Sample.repr Sample.zip_partial Sample.zip_final
            (of_string "demo/sub") (Some Sample.out)
            (Sample.world_with Sample.doc_valid))) = 1%Z /\
  fs (snd (main Sample.pyyaml Sample.repr Sample.zip_partial Sample.zip_final
             (of_string "demo/sub") (Some Sample.out)
             (Sample.world_with Sample.doc_valid)))
  = Sample.tree_with Sample.doc_valid.
Proof.
  destruct (@failed_validation_skips_packaging Sample.pyyaml Sample.repr
              Sample.zip_partial Sample.zip_final (of_string "demo/sub")
              (Some Sample.out) (Sample.world_with Sample.doc_valid))
    as (_ & _ & E & F & _); [vm_compute; reflexivity|].
  split; assumption.
Defined.



Lemma package_skill_overwrites_prior_archive_witness :
  exists w2,
    package_skill Sample.pyyaml Sample.repr Sample.zip_partial Sample.zip_final
      Sample.demo Sample.out
      (snd (package_skill Sample.pyyaml Sample.repr Sample.zip_partial
              Sample.zip_final Sample.demo Sample.out
              (Sample.world_with Sample.doc_valid)))
    = (Ret (div Sample.out "foo.skill"), w2) /\
    fs w2
    = fs (snd (package_skill Sample.pyyaml Sample.repr Sample.zip_partial
                 Sample.zip_final Sample.demo Sample.out
                 (Sample.world_with Sample.doc_valid))).
Proof.
  destruct (@package_skill_overwrites_prior_archive Sample.pyyaml Sample.repr
              Sample.zip_partial Sample.zip_final Sample.demo Sample.out
              (Sample.world_with Sample.doc_valid)
              (div Sample.out "foo.skill")
              (snd (package_skill Sample.pyyaml Sample.repr Sample.zip_partial
                      Sample.zip_final Sample.demo Sample.out
                      (Sample.world_with Sample.doc_valid)))
              ltac:(vm_compute; reflexivity))
    as [(w2 & R & F & _) _].
  exists w2. split; assumption.
Defined.

(** ** Where C6 and C7 fail as stated *)



(** ** Examples from the specification *)

(** Packaging [demo] into [out] gives [out/foo.skill] with the three files
    under [demo/]. *)
Example package_demo :
  let run := main Sample.pyyaml Sample.repr Sample.zip_partial Sample.zip_final
               Sample.demo (Some Sample.out)
               (Sample.world_with Sample.doc_valid) in
  exit_status (fst run) = 0%Z /\
  map (fun e => to_str (fst e)) (zf_entries (snd run))
  = ["demo/SKILL.md"; "demo/a.txt"; "demo/sub/b.txt"]%string /\
  FS.is_file_node (stat (snd run) (of_string "out/foo.skill")) = true.
Proof. vm_compute. auto. Qed.

(** A source path that is a regular file ends the run with status 1. *)
Example source_is_a_file :
  fst (main Sample.pyyaml Sample.repr Sample.zip_partial Sample.zip_final
         (of_string "demo/a.txt") None (Sample.world_with Sample.doc_valid))
  = SysExit 1.
Proof. reflexivity. Qed.

(** A [---] inside a value ends the block: the description is never seen. *)
Example dashes_in_value_end_the_block :
  validate_skill Sample.pyyaml Sample.demo
    (Sample.world_with Sample.doc_dashes_in_value)
  = (Ret false,
     set_stdout (Sample.world_with Sample.doc_dashes_in_value)
       ["❌ Error: Missing required field: description"%string]).
Proof. reflexivity. Qed.

(* ================================================================== *)
(** * Further properties of the script *)

(** ** More on file trees *)

Module FSMore.
Import FS.

Lemma lookup_fresh_dirs_no_file p q d :
  lookup (fresh_dirs p) q <> Some (File d).
Proof.
  revert q; induction p as [|c p IH]; intros [|k q]; simpl; try discriminate.
  destruct (String.eqb c k); [apply IH|discriminate].
Qed.

(** [mkdirs] makes no regular file. *)
Lemma mkdirs_file_inv n p n' q d :
  mkdirs n p = Done n' -> lookup n' q = Some (File d) ->
  lookup n q = Some (File d).
Proof.
  revert n n' q; induction p as [|c p IH]; intros n n' q H L; simpl in H.
  - destruct n; inversion H; subst; assumption.
  - destruct n as [|es|]; try discriminate.
    destruct q as [|k q].
    + destruct (assoc c es) as [child|].
      * destruct (mkdirs child p); inversion H; subst; discriminate.
      * inversion H; subst; discriminate.
    + simpl. destruct (String.eqb_spec c k) as [->|N].
      * destruct (assoc k es) as [child|] eqn:A.
        -- destruct (mkdirs child p) as [child'|] eqn:R; [|discriminate].
           inversion H; subst. simpl in L. rewrite assoc_set_assoc_eq in L.
           eauto.
        -- inversion H; subst. simpl in L. rewrite assoc_set_assoc_eq in L.
           now apply lookup_fresh_dirs_no_file in L.
      * destruct (assoc c es) as [child|] eqn:A.
        -- destruct (mkdirs child p) as [child'|] eqn:R; [|discriminate].
           inversion H; subst. simpl in L.
           now rewrite assoc_set_assoc_neq in L.
        -- inversion H; subst. simpl in L.
           now rewrite assoc_set_assoc_neq in L.
Qed.

(** [create] makes no regular file but the one it is asked for. *)
Lemma create_file_inv n t x n' q d :
  create n t x = Done n' -> lookup n' q = Some (File d) -> q <> t ->
  lookup n q = Some (File d).
Proof.
  revert n n' q; induction t as [|c t IH]; intros n n' q H L N; simpl in H.
  - destruct n; inversion H; subst. destruct q; [congruence|discriminate].
  - destruct n as [|es|]; try discriminate.
    destruct q as [|k q].
    + destruct (assoc c es) as [child|].
      * destruct (create child t x); inversion H; subst; discriminate.
      * destruct t; inversion H; subst; discriminate.
    + simpl. destruct (String.eqb_spec c k) as [->|Nk].
      * destruct (assoc k es) as [child|] eqn:A.
        -- destruct (create child t x) as [child'|] eqn:R; [|discriminate].
           inversion H; subst. simpl in L. rewrite assoc_set_assoc_eq in L.
           apply (IH child child'); auto. congruence.
        -- destruct t; [|discriminate]. inversion H; subst. simpl in L.
           rewrite assoc_set_assoc_eq in L.
           destruct q; [congruence|discriminate].
      * destruct (assoc c es) as [child|] eqn:A.
        -- destruct (create child t x) as [child'|] eqn:R; [|discriminate].
           inversion H; subst. simpl in L.
           now rewrite assoc_set_assoc_neq in L.
        -- destruct t; [|discriminate]. inversion H; subst. simpl in L.
           now rewrite assoc_set_assoc_neq in L.
Qed.

(** The two ways [mkdirs] fails. *)
Lemma mkdirs_errno n p c :
  mkdirs n p = Errno c -> c = FileExistsError \/ c = NotADirectoryError.
Proof.
  revert n; induction p as [|k p IH]; intros n H; simpl in H.
  - destruct n; inversion H; auto.
  - destruct n as [|es|]; try (inversion H; auto; fail).
    destruct (assoc k es) as [child|]; [|discriminate].
    destruct (mkdirs child p) eqn:R; [discriminate|].
    inversion H; subst. eauto.
Qed.

End FSMore.

Import FSMore.

(** ** The validator *)

Section ValidatorFacts.
Variable safe_load : string -> load_result.

Lemma split_2_eq sep s :
  Str.split sep s 2 =
  match Str.partition sep s with
  | None => [s]
  | Some (a, b) =>
      a :: match Str.partition sep b with
           | None => [b]
           | Some (x, y) => [x; y]
           end
  end.
Proof. reflexivity. Qed.

Lemma split_leading_delimiter content a b c :
  Str.startswith content "---" = true ->
  Str.split "---" content 2 = [a; b; c] -> a = EmptyString.
Proof.
  intros S. rewrite split_2_eq, partition_eq, S.
  destruct (Str.partition "---" _) as [[x y]|]; [|discriminate].
  now intros [= <- _ _].
Qed.


(** X1.  [validate_skill] returns [True] exactly when [SKILL.md] is a
    regular file of valid UTF-8 whose text starts with [---], splits at the
    first two [---] into an empty head, a block and a rest, and the block
    parses to a truthy value in which both [name] and [description] are
    found; and then nothing was printed or changed. *)
Theorem validate_skill_true_exactly_when (skill_dir : Path) (w w' : world) :
  validate_skill safe_load skill_dir w = (Ret true, w') <->
  w' = w /\
  exists bytes content block rest m,
    stat w (div skill_dir "SKILL.md") = Some (FS.File bytes) /\
    Str.decode_text bytes = Some content /\
    Str.startswith content "---" = true /\
    Str.split "---" content 2 = [EmptyString; block; rest] /\
    safe_load block = Loaded m /\
    truthy m = true /\
    Py.contains "name" m = Ok true /\
    Py.contains "description" m = Ok true.
Proof.
  rewrite validate_skill_true_iff. unfold parsed_metadata. split.
  - intros (-> & m & P & T & Cn & Cd). split; [reflexivity|].
    destruct (stat w (div skill_dir "SKILL.md")) as [[bytes| |]|];
      try discriminate.
    destruct (Str.decode_text bytes) as [content|] eqn:D; try discriminate.
    destruct (Str.startswith content "---") eqn:S; [|discriminate].
    destruct (3 <=? length (Str.split "---" content 2))%nat eqn:G;
      [|discriminate].
    apply Nat.leb_le in G.
    destruct (split_three _ _ G) as (a & b & c & E & _).
    pose proof (@split_leading_delimiter _ _ _ _ S E) as ->.
    rewrite E in P. unfold nth in P.
    destruct (safe_load b) as [m'|] eqn:L; [|discriminate].
    injection P as ->. exists bytes, content, b, c, m. auto 10.
  - intros (-> & bytes & content & block & rest & m
            & S & D & St & Sp & L & T & Cn & Cd).
    split; [reflexivity|]. exists m.
    rewrite S, D, St, Sp. unfold nth. cbn [length Nat.leb andb].
    change (3 <=? 3)%nat with true. cbn [andb]. rewrite L. auto.
Qed.

(** X2.  However [validate_skill] ends, it leaves the file tree, the
    working directory and the archive object alone, and it never exits the
    process.  It prints nothing when it returns [True] or raises, and
    exactly one line, starting with the error mark, when it returns
    [False]. *)
Theorem validate_skill_output_discipline (skill_dir : Path) (w w' : world)
    (r : outcome bool) :
  validate_skill safe_load skill_dir w = (r, w') ->
  fs w' = fs w /\ cwd w' = cwd w /\ zf_entries w' = zf_entries w /\
  match r with
  | Ret true => stdout w' = stdout w
  | Ret false =>
      exists line,
        stdout w' = stdout w ++ [line] /\
        Str.startswith line "❌ Error: " = true
  | Raise _ => stdout w' = stdout w
  | SysExit _ => False
  end.
Proof.
  unfold validate_skill. unfold_monad. intros H.
  repeat (case_step; cbn in *; try discriminate; tidy);
    repeat split; try reflexivity;
    try (eexists; split; reflexivity).
Qed.

(** X3.  [validate_skill] returns [False] exactly in the seven cases the
    code lists, in this order, each with its own message as the one line
    printed: no [SKILL.md]; text not starting with [---]; fewer than three
    parts; a parse error (with the parser's detail); falsy metadata; no
    [name]; no [description]. *)
Theorem validate_skill_false_exactly_when (skill_dir : Path) (w w' : world) :
  validate_skill safe_load skill_dir w = (Ret false, w') <->
  exists line,
    w' = set_stdout w (stdout w ++ [line]) /\
    ((stat w (div skill_dir "SKILL.md") = None /\
      line = "❌ Error: SKILL.md not found in " +++ to_str skill_dir) \/
     exists bytes content,
       stat w (div skill_dir "SKILL.md") = Some (FS.File bytes) /\
       Str.decode_text bytes = Some content /\
       ((Str.startswith content "---" = false /\
         line = "❌ Error: SKILL.md missing YAML frontmatter (must start with '---')"%string) \/
        Str.startswith content "---" = true /\
        ((length (Str.split "---" content 2) < 3)%nat /\
         line = "❌ Error: Invalid YAML frontmatter format"%string \/
         (3 <= length (Str.split "---" content 2))%nat /\
         match safe_load (nth 1 (Str.split "---" content 2) EmptyString) with
         | ParseError detail =>
             line = "❌ Error: Invalid YAML in frontmatter: " +++ detail
         | Loaded m =>
             truthy m = false /\
             line = "❌ Error: Empty YAML frontmatter"%string \/
             truthy m = true /\
             (Py.contains "name" m = Ok false /\
              line = "❌ Error: Missing required field: name"%string \/
              Py.contains "name" m = Ok true /\
              Py.contains "description" m = Ok false /\
              line = "❌ Error: Missing required field: description"%string)
         end))).
Proof.
  unfold validate_skill.
  rewrite bind_eq. unfold path_exists.
  destruct (stat w (div skill_dir "SKILL.md")) as [x|] eqn:S;
    cbn [FS.is_some_node negb].
  2: { split.
       - intros [= <-]. eexists. split; [reflexivity|]. left. now split.
       - intros (line & -> & [[_ ->]|(bytes & content & X & _)]);
           [reflexivity|discriminate]. }
  rewrite bind_eq. unfold read_text. rewrite bind_eq. unfold read_bytes.
  rewrite S.
  destruct x as [bytes|es|].
  2, 3: split; [discriminate|];
        intros (line & _ & [[X _]|(bytes & content & X & _)]); discriminate.
  destruct (Str.decode_text bytes) as [content|] eqn:D.
  2: { split; [discriminate|].
       intros (line & _ & [[X _]|(b & c & [= <-] & X & _)]); congruence. }
  unfold ret at 1.
  destruct (Str.startswith content "---") eqn:St; cbn [negb].
  2: { split.
       - intros [= <-]. eexists. split; [reflexivity|]. right.
         exists bytes, content. rewrite St. auto.
       - intros (line & -> & [[X _]|(b & c & [= <-] & Y & Z)]);
           [discriminate|].
         rewrite D in Y. injection Y as <-. rewrite St in Z.
         destruct Z as [[_ ->]|[Z _]]; [reflexivity|discriminate]. }
  destruct (length (Str.split "---" content 2) <? 3)%nat eqn:L.
  { apply Nat.ltb_lt in L. split.
    - intros [= <-]. eexists. split; [reflexivity|]. right.
      exists bytes, content. rewrite St. auto 7.
    - intros (line & -> & [[X _]|(b & c & [= <-] & Y & Z)]);
        [discriminate|].
      rewrite D in Y. injection Y as <-. rewrite St in Z.
      destruct Z as [[Z _]|[_ [[_ ->]|[Z _]]]];
        [discriminate|reflexivity|lia]. }
  apply Nat.ltb_ge in L.
  split.
  - intros H. 
    assert (exists line, w' = set_stdout w (stdout w ++ [line]) /\
              match safe_load (nth 1 (Str.split "---" content 2) EmptyString) with
              | ParseError detail =>
                  line = "❌ Error: Invalid YAML in frontmatter: " +++ detail
              | Loaded m =>
                  truthy m = false /\
                  line = "❌ Error: Empty YAML frontmatter"%string \/
                  truthy m = true /\
                  (Py.contains "name" m = Ok false /\
                   line = "❌ Error: Missing required field: name"%string \/
                   Py.contains "name" m = Ok true /\
                   Py.contains "description" m = Ok false /\
                   line = "❌ Error: Missing required field: description"%string)
              end) as (line & E & X).
    { destruct (safe_load _) as [m|detail].
      - destruct (truthy m) eqn:T; cbn [negb] in H.
        + rewrite bind_eq in H.
          destruct (Py.contains "name" m) as [[|]|e] eqn:C;
            cbn [lift ret raise negb] in H; try discriminate.
          * rewrite bind_eq in H.
            destruct (Py.contains "description" m) as [[|]|e] eqn:C';
              cbn [lift ret raise negb] in H; try discriminate.
            injection H as <-. eexists. split; [reflexivity|]. auto 6.
          * injection H as <-. eexists. split; [reflexivity|]. auto 6.
        + injection H as <-. eexists. split; [reflexivity|]. auto.
      - injection H as <-. eexists. split; [reflexivity|]. reflexivity. }
    exists line. split; [exact E|]. right. exists bytes, content.
    rewrite St. auto 7.
  - intros (line & -> & [[X _]|(b & c & [= <-] & Y & Z)]); [discriminate|].
    rewrite D in Y. injection Y as <-. rewrite St in Z.
    destruct Z as [[Z _]|[_ [[Z _]|[_ X]]]]; [discriminate|lia|].
    destruct (safe_load _) as [m|detail]; [|now subst].
    destruct X as [[T ->]|[T [[C ->]|(C & C' & ->)]]]; rewrite T; cbn [negb];
      [reflexivity| |]; rewrite bind_eq, C; cbn [lift ret raise negb]; [reflexivity|].
    rewrite bind_eq, C'. reflexivity.
Qed.
(** X4.  A metadata file whose text is not [---], a block, [---] and a rest
    is rejected, whatever the parser would make of it: [validate_skill]
    returns [False]. *)
Theorem validate_skill_needs_two_delimiters (skill_dir : Path) (w : world)
    (bytes content : string) :
  stat w (div skill_dir "SKILL.md") = Some (FS.File bytes) ->
  Str.decode_text bytes = Some content ->
  (forall block rest, content <> "---" +++ block +++ "---" +++ rest) ->
  fst (validate_skill safe_load skill_dir w) = Ret false.
Proof.
  intros S D N. unfold validate_skill.
  rewrite bind_eq. unfold path_exists. rewrite S. cbn [FS.is_some_node negb].
  rewrite bind_eq. unfold read_text. rewrite bind_eq. unfold read_bytes.
  rewrite S, D. unfold ret at 1.
  destruct (Str.startswith content "---") eqn:St; cbn [negb];
    [|reflexivity].
  assert (L : (length (Str.split "---" content 2) <? 3)%nat = true).
  { apply Nat.ltb_lt. rewrite split_2_eq.
    destruct (Str.partition "---" content) as [[a t]|] eqn:P1;
      [|simpl; lia].
    destruct (Str.partition "---" t) as [[b c]|] eqn:P2; [|simpl; lia].
    exfalso. rewrite partition_eq, St in P1. injection P1 as <- <-.
    apply partition_sound in P2. apply (N b c).
    rewrite (startswith_split _ _ St) at 1. f_equal. exact P2. }
  rewrite L. reflexivity.
Qed.

(** X5.  When the block parses to a mapping, [validate_skill] returns, and
    the result is [True] exactly when the mapping has both the key [name]
    and the key [description]; the values bound to them are not looked
    at. *)
Theorem validate_skill_on_mapping (skill_dir : Path) (w : world)
    (items : list (pyval * pyval)) :
  parsed_metadata safe_load w skill_dir = Some (PyDict items) ->
  fst (validate_skill safe_load skill_dir w)
  = Ret (existsb (fun kv => is_str "name" (fst kv)) items
         && existsb (fun kv => is_str "description" (fst kv)) items).
Proof.
  unfold validate_skill, parsed_metadata. unfold_monad. intros H.
  unfold Py.contains, truthy.
  repeat (case_step; cbn in *; try discriminate; tidy; try congruence);
    try lia;
    try (destruct items; [reflexivity|discriminate]);
    repeat match goal with
           | H : existsb _ _ = _ |- _ => rewrite H; clear H
           end; reflexivity.
Qed.

(** The exceptions that leave [validate_skill], and when. *)
Lemma validate_skill_raise_iff (skill_dir : Path) (w : world) (e : exn) :
  fst (validate_skill safe_load skill_dir w) = Raise e <->
  (exists es, stat w (div skill_dir "SKILL.md") = Some (FS.Dir es) /\
              e = os_error IsADirectoryError (div skill_dir "SKILL.md")) \/
  (stat w (div skill_dir "SKILL.md") = Some FS.Special /\
   e = os_error OSError (div skill_dir "SKILL.md")) \/
  (exists bytes, stat w (div skill_dir "SKILL.md") = Some (FS.File bytes) /\
                 Str.decode_text bytes = None /\
                 e = Exn UnicodeDecodeError "'utf-8' codec can't decode bytes") \/
  (exists m, parsed_metadata safe_load w skill_dir = Some m /\
             truthy m = true /\
             (Py.contains "name" m = Err e \/
              Py.contains "name" m = Ok true /\
              Py.contains "description" m = Err e)).
Proof.
  unfold validate_skill, parsed_metadata. unfold_monad. split.
  - intros H.
    repeat (case_step; cbn in *; try discriminate; tidy; try congruence);
      try lia;
      try (injection H as <-); eauto 12.
  - intros [(es & S & ->)|[(S & ->)|[(bytes & S & D & ->)|(m & P & T & C)]]].
    + rewrite S. cbn. rewrite S. reflexivity.
    + rewrite S. cbn. rewrite S. reflexivity.
    + rewrite S. cbn. rewrite S, D. reflexivity.
    + repeat (case_step; cbn in *; try discriminate; tidy; try congruence);
        try lia; destruct C as [C|[C C']]; cbn; congruence.
Qed.


(** X7.  What follows the closing delimiter has no influence: two metadata
    files with the same block between the first two delimiters get the same
    verdict from [validate_skill] and the same skill name in
    [package_skill], whatever their bodies. *)
Theorem frontmatter_body_is_ignored (skill_dir : Path) (w1 w2 : world)
    (bytes1 bytes2 block rest1 rest2 : string) :
  stat w1 (div skill_dir "SKILL.md") = Some (FS.File bytes1) ->
  Str.decode_text bytes1 = Some ("---" +++ block +++ "---" +++ rest1) ->
  stat w2 (div skill_dir "SKILL.md") = Some (FS.File bytes2) ->
  Str.decode_text bytes2 = Some ("---" +++ block +++ "---" +++ rest2) ->
  Str.partition "---" (block +++ "--") = None ->
  fst (validate_skill safe_load skill_dir w1)
  = fst (validate_skill safe_load skill_dir w2) /\
  skill_name_of safe_load w1 skill_dir = skill_name_of safe_load w2 skill_dir.
Proof.
  intros S1 D1 S2 D2 N.
  assert (P : forall w bytes rest,
             stat w (div skill_dir "SKILL.md") = Some (FS.File bytes) ->
             Str.decode_text bytes
             = Some ("---" +++ block +++ "---" +++ rest) ->
             parsed_metadata safe_load w skill_dir
             = match safe_load block with
               | Loaded m => Some m
               | ParseError _ => None
               end).
  { intros w bytes rest S D. unfold parsed_metadata.
    rewrite S, D, (split_frontmatter _ _ N). now rewrite startswith_append. }
  assert (T : forall w bytes rest w' bytes' rest',
             stat w (div skill_dir "SKILL.md") = Some (FS.File bytes) ->
             Str.decode_text bytes
             = Some ("---" +++ block +++ "---" +++ rest) ->
             stat w' (div skill_dir "SKILL.md") = Some (FS.File bytes') ->
             Str.decode_text bytes'
             = Some ("---" +++ block +++ "---" +++ rest') ->
             fst (validate_skill safe_load skill_dir w) = Ret true ->
             fst (validate_skill safe_load skill_dir w') = Ret true).
  { intros w bytes rest w' bytes' rest' S D S' D' V.
    destruct (validate_skill safe_load skill_dir w) as [r u] eqn:E.
    simpl in V. subst r.
    apply validate_skill_true_iff in E as (_ & m & Pm & Tm & Cn & Cd).
    rewrite (P _ _ _ S D) in Pm. rewrite <- (P _ _ _ S' D') in Pm.
    assert (E' : validate_skill safe_load skill_dir w' = (Ret true, w'))
      by (apply validate_skill_true_iff; eauto 6).
    now rewrite E'. }
  assert (R : forall w bytes rest w' bytes' rest' e,
             stat w (div skill_dir "SKILL.md") = Some (FS.File bytes) ->
             Str.decode_text bytes
             = Some ("---" +++ block +++ "---" +++ rest) ->
             stat w' (div skill_dir "SKILL.md") = Some (FS.File bytes') ->
             Str.decode_text bytes'
             = Some ("---" +++ block +++ "---" +++ rest') ->
             fst (validate_skill safe_load skill_dir w) = Raise e ->
             fst (validate_skill safe_load skill_dir w') = Raise e).
  { intros w bytes rest w' bytes' rest' e S D S' D' V.
    apply validate_skill_raise_iff in V.
    apply validate_skill_raise_iff. do 3 right.
    destruct V as [(es & X & _)|[(X & _)|[(b & X & Y & _)|(m & Pm & C)]]];
      try congruence.
    exists m. rewrite (P _ _ _ S' D'), <- (P _ _ _ S D). auto. }
  split.
  - destruct (validate_skill safe_load skill_dir w1) as [r1 u1] eqn:E1.
    destruct (validate_skill safe_load skill_dir w2) as [r2 u2] eqn:E2.
    pose proof (T _ _ _ _ _ _ S1 D1 S2 D2) as T12.
    pose proof (T _ _ _ _ _ _ S2 D2 S1 D1) as T21.
    pose proof (fun e => R _ _ _ _ _ _ e S1 D1 S2 D2) as R12.
    pose proof (fun e => R _ _ _ _ _ _ e S2 D2 S1 D1) as R21.
    rewrite E1, E2 in *. cbn [fst] in *.
    destruct (validate_skill_frame _ _ _ E1) as (_ & _ & _ & X1).
    destruct (validate_skill_frame _ _ _ E2) as (_ & _ & _ & X2).
    destruct r1 as [[|]|e1|n1].
    + symmetry. now apply T12.
    + destruct r2 as [[|]|e2|n2]; auto. now destruct (X2 n2).
    + symmetry. now apply R12.
    + now destruct (X1 n1).
  - unfold skill_name_of.
    rewrite S1, D1, S2, D2, !(split_frontmatter _ _ N). reflexivity.
Qed.

End ValidatorFacts.

(** ** The archiver *)

Section ProgramFacts.
Variable safe_load : string -> load_result.
Variable py_repr : pyval -> string.
Variable zip_partial : list entry -> string.
Variable zip_final : list entry -> string.

(** Where a member comes from. *)
Lemma collect_sound t c zf base paths : forall acc e,
  In e (collect zip_partial t c zf base acc paths) ->
  exists p on_disk,
    In p paths /\
    FS.lookup t (resolve_from c p) = Some (FS.File on_disk) /\
    fst e = arc_of base p /\
    (resolve_from c p <> zf -> snd e = on_disk).
Proof.
  induction paths as [|q paths IH]; intros acc e H; simpl in H;
    [contradiction|].
  destruct (FS.lookup t (resolve_from c q)) as [[d| |]|] eqn:L;
    try (destruct (IH _ _ H) as (p & o & I & R); exists p, o;
         split; [now right|exact R]).
  destruct H as [<-|H].
  - exists q, d. split; [now left|]. split; [assumption|].
    split; [reflexivity|]. simpl. intros N.
    destruct (list_eq_dec string_dec (resolve_from c q) zf); congruence.
  - destruct (IH _ _ H) as (p & o & I & R). exists p, o.
    split; [now right|exact R].
Qed.

(** Every regular file among the paths becomes a member with its bytes. *)
Lemma collect_complete t c zf base paths : forall acc p d,
  In p paths ->
  FS.lookup t (resolve_from c p) = Some (FS.File d) ->
  resolve_from c p <> zf ->
  In (arc_of base p, d) (collect zip_partial t c zf base acc paths).
Proof.
  induction paths as [|q paths IH]; intros acc p d I L N; [contradiction|].
  simpl. destruct I as [->|I].
  - rewrite L. left.
    destruct (list_eq_dec string_dec (resolve_from c p) zf); congruence.
  - destruct (FS.lookup t (resolve_from c q)) as [[x| |]|]; auto.
    right. auto.
Qed.

(** The archive itself, met on the walk, becomes a member too. *)
Lemma collect_self t c zf base paths : forall acc p d,
  In p paths ->
  FS.lookup t (resolve_from c p) = Some (FS.File d) ->
  resolve_from c p = zf ->
  exists before,
    In (arc_of base p, zip_partial before)
       (collect zip_partial t c zf base acc paths).
Proof.
  induction paths as [|q paths IH]; intros acc p d I L N; [contradiction|].
  simpl. destruct I as [->|I].
  - rewrite L. exists acc. left.
    destruct (list_eq_dec string_dec (resolve_from c p) zf); congruence.
  - destruct (FS.lookup t (resolve_from c q)) as [[x| |]|];
      try (apply (IH _ _ _ I L N)).
    destruct (IH (acc ++ [(arc_of base q,
                           if list_eq_dec string_dec (resolve_from c q) zf
                           then zip_partial acc else x)]) _ _ I L N)
      as [before B].
    exists before. now right.
Qed.

(** What is below the source directory in a tree is met on the walk. *)
Lemma walked_complete t c dir rel x :
  FS.lookup t (resolve_from c (below dir rel)) = Some x -> rel <> [] ->
  In (below dir rel) (walked t c dir).
Proof.
  intros L N. rewrite resolve_below, lookup_app in L. unfold walked.
  destruct (FS.lookup t (resolve_from c dir)) as [n|]; [|discriminate].
  apply in_map. now apply (@lookup_descendants _ _ _ L).
Qed.

Lemma walked_sound t c dir p :
  In p (walked t c dir) -> exists rel, p = below dir rel /\ rel <> [].
Proof.
  unfold walked. destruct (FS.lookup t (resolve_from c dir)); [|contradiction].
  intros H. apply in_map_iff in H as (rel & <- & I).
  exists rel. split; [reflexivity|]. now apply descendants_nonempty in I.
Qed.

(** X8.  Called on a metadata file whose block parses to a mapping without
    [name], [package_skill] raises [KeyError] with the text ['name'] and
    has changed nothing: no directory made, no archive opened. *)
Theorem package_skill_missing_name_key (skill_dir output_dir : Path)
    (w : world) (bytes content block : string)
    (items : list (pyval * pyval)) :
  stat w (div skill_dir "SKILL.md") = Some (FS.File bytes) ->
  Str.decode_text bytes = Some content ->
  nth_error (Str.split "---" content 2) 1 = Some block ->
  safe_load block = Loaded (PyDict items) ->
  dict_get "name" items = None ->
  package_skill safe_load py_repr zip_partial zip_final
    skill_dir output_dir w
  = (Raise (Exn KeyError "'name'"), w).
Proof.
  intros S D B L G.
  unfold package_skill, read_text, read_bytes, index, yaml_safe_load.
  rewrite !bind_eq, S, D. unfold ret at 1. rewrite B.
  unfold ret at 1. cbv beta iota. rewrite !bind_eq, L.
  unfold ret at 1. cbv beta iota. rewrite bind_eq.
  unfold getitem. rewrite G. reflexivity.
Qed.

(** X9.  Called on a metadata file without any [---], [package_skill]
    raises [IndexError] at [parts[1]], before the parser is called, and has
    changed nothing. *)
Theorem package_skill_without_delimiter (skill_dir output_dir : Path)
    (w : world) (bytes content : string) :
  stat w (div skill_dir "SKILL.md") = Some (FS.File bytes) ->
  Str.decode_text bytes = Some content ->
  Str.partition "---" content = None ->
  package_skill safe_load py_repr zip_partial zip_final
    skill_dir output_dir w
  = (Raise (Exn IndexError "list index out of range"), w).
Proof.
  intros S D P.
  unfold package_skill, read_text, read_bytes, index.
  rewrite !bind_eq, S, D. unfold ret at 1.
  rewrite split_2_eq, P. reflexivity.
Qed.

(** X10.  When something that is not a directory lies at the output
    directory or on the way to it, [package_skill] raises the error of
    [mkdir] ([FileExistsError] or [NotADirectoryError]) for the output
    directory and has changed nothing. *)
Theorem package_skill_blocked_output_dir (skill_dir output_dir : Path)
    (w : world) (v : pyval) :
  skill_name_of safe_load w skill_dir = Some v ->
  FS.only_dirs_on (fs w) (resolve w output_dir) = false ->
  exists c,
    (c = FileExistsError \/ c = NotADirectoryError) /\
    package_skill safe_load py_repr zip_partial zip_final
      skill_dir output_dir w
    = (Raise (os_error c output_dir), w).
Proof.
  intros N B.
  pose proof (package_skill_cases safe_load py_repr zip_partial zip_final
                skill_dir output_dir w) as H.
  rewrite N in H. rewrite H.
  pose proof (write_archive_cases py_repr zip_partial zip_final
                v skill_dir output_dir w) as W.
  cbv zeta in W.
  destruct (FS.mkdirs (fs w) (resolve w output_dir)) as [t1|c] eqn:K.
  - assert (X : FS.only_dirs_on (fs w) (resolve w output_dir) = true)
      by (apply mkdirs_total; eauto).
    congruence.
  - exists c. split; [exact (mkdirs_errno _ _ K)|exact W].
Qed.

(** Files other than the output file, across [write_archive]. *)
Lemma write_archive_files v dir D w r w' q data :
  write_archive py_repr zip_partial zip_final v dir D w = (r, w') ->
  q <> resolve w (div D (format_value py_repr v +++ ".skill")) ->
  (FS.lookup (fs w') q = Some (FS.File data) <->
   FS.lookup (fs w) q = Some (FS.File data)).
Proof.
  intros R N.
  pose proof (write_archive_cases py_repr zip_partial zip_final v dir D w) as W.
  cbv zeta in W.
  destruct (FS.mkdirs (fs w) (resolve w D)) as [t1|c] eqn:K.
  - destruct (FS.create t1 _ EmptyString) as [t2|c] eqn:C.
    + destruct W as (t3 & C3 & E). rewrite E in R. injection R as <- <-.
      cbn [fs]. split; intros L.
      * apply (@mkdirs_file_inv _ _ _ _ _ K).
        apply (@create_file_inv _ _ _ _ _ _ C); [|exact N].
        apply (@create_file_inv _ _ _ _ _ _ C3); [|exact N]. exact L.
      * apply (@create_keeps_file _ _ _ _ _ _ C3); [|exact N].
        apply (@create_keeps_file _ _ _ _ _ _ C); [|exact N].
        apply (@mkdirs_keeps_file _ _ _ _ _ K L).
    + rewrite W in R. injection R as <- <-. cbn [fs set_fs]. split.
      * apply (@mkdirs_file_inv _ _ _ _ _ K).
      * apply (@mkdirs_keeps_file _ _ _ _ _ K).
  - rewrite W in R. injection R as <- <-. tauto.
Qed.

(** X11.  However [package_skill] ends, the regular files other than the
    output file are the same before and after, with the same bytes: none is
    changed or removed, and none is created. *)
Theorem package_skill_touches_no_other_file (skill_dir output_dir : Path)
    (w : world) (r : outcome Path) (w' : world) :
  package_skill safe_load py_repr zip_partial zip_final
    skill_dir output_dir w = (r, w') ->
  forall q data,
    (forall v, skill_name_of safe_load w skill_dir = Some v ->
               q <> resolve w (div output_dir
                                 (format_value py_repr v +++ ".skill"))) ->
    (FS.lookup (fs w') q = Some (FS.File data) <->
     FS.lookup (fs w) q = Some (FS.File data)).
Proof.
  intros R q data N.
  pose proof (package_skill_cases safe_load py_repr zip_partial zip_final
                skill_dir output_dir w) as H.
  destruct (skill_name_of safe_load w skill_dir) as [v|].
  - rewrite H in R. exact (@write_archive_files _ _ _ _ _ _ _ _ R (N v eq_refl)).
  - destruct H as [e H]. rewrite H in R. injection R as <- <-. tauto.
Qed.

(** X12.  When [package_skill] returns, every member's name is the path
    of some entry below the source directory relative to its parent, and,
    unless that entry is the output file itself, the member's bytes are the
    bytes the file had when the run started; and every regular file that
    was below the source directory then, the output file apart, is a
    member with its bytes. *)
Theorem package_skill_members_hold_the_file_bytes
    (skill_dir output_dir : Path) (w : world) (p : Path) (w' : world) :
  package_skill safe_load py_repr zip_partial zip_final
    skill_dir output_dir w = (Ret p, w') ->
  (forall arc data,
     In (arc, data) (zf_entries w') ->
     exists rel,
       rel <> [] /\
       relative_to (below skill_dir rel) (parent skill_dir) = Ok arc /\
       (resolve w (below skill_dir rel) <> resolve w p ->
        stat w (below skill_dir rel) = Some (FS.File data))) /\
  (forall rel data,
     rel <> [] ->
     stat w (below skill_dir rel) = Some (FS.File data) ->
     resolve w (below skill_dir rel) <> resolve w p ->
     In ({| absolute := false; parts := name_parts skill_dir ++ rel |}, data)
        (zf_entries w')).
Proof.
  intros R.
  destruct (@package_skill_inv safe_load py_repr zip_partial zip_final
              _ _ _ _ _ R)
    as (v & t1 & t2 & t3 & _ & _ & K & C & C3 & ->).
  unfold packaged, stat, resolve in *. cbn [zf_entries]. unfold members.
  split.
  - intros arc data I.
    apply collect_sound in I as (q & d & Q & L & A & B). cbn [fst snd] in A, B.
    apply walked_sound in Q as (rel & -> & NE).
    exists rel. split; [assumption|]. split.
    + rewrite relative_to_below. rewrite A, arc_of_below. reflexivity.
    + intros N. rewrite (B N).
      apply (@mkdirs_file_inv _ _ _ _ _ K).
      apply (@create_file_inv _ _ _ _ _ _ C); [exact L|exact N].
  - intros rel data NE S N.
    rewrite <- (arc_of_below skill_dir rel).
    apply collect_complete; [|  |exact N].
    + apply walked_complete with (x := FS.File data); [|exact NE].
      apply (@create_keeps_file _ _ _ _ _ _ C); [|exact N].
      apply (@mkdirs_keeps_file _ _ _ _ _ K S).
    + apply (@create_keeps_file _ _ _ _ _ _ C); [|exact N].
      apply (@mkdirs_keeps_file _ _ _ _ _ K S).
Qed.

(** X13.  When the output file lies below the source directory,
    [package_skill] adds the archive under construction to itself: it is a
    member, holding what had reached the disk when the walk came to it. *)
Theorem package_skill_packs_its_own_archive (skill_dir output_dir : Path)
    (w : world) (p : Path) (w' : world) (rel : list string) :
  package_skill safe_load py_repr zip_partial zip_final
    skill_dir output_dir w = (Ret p, w') ->
  resolve w p = resolve w (below skill_dir rel) ->
  rel <> [] ->
  exists before,
    In ({| absolute := false; parts := name_parts skill_dir ++ rel |},
        zip_partial before) (zf_entries w').
Proof.
  intros R E NE.
  destruct (@package_skill_inv safe_load py_repr zip_partial zip_final
              _ _ _ _ _ R)
    as (v & t1 & t2 & t3 & _ & _ & K & C & C3 & ->).
  unfold packaged, resolve in *. cbn [zf_entries]. unfold members.
  pose proof (@create_lookup _ _ _ _ C) as L. rewrite E in L.
  rewrite <- (arc_of_below skill_dir rel).
  apply collect_self with (d := EmptyString); auto.
  now apply walked_complete with (x := FS.File EmptyString).
Qed.

(** X14.  When [package_skill] returns, what it printed is one [Added]
    line per member of the archive, in the order of the members, and
    nothing else. *)
Theorem package_skill_prints_one_line_per_member
    (skill_dir output_dir : Path) (w : world) (p : Path) (w' : world) :
  package_skill safe_load py_repr zip_partial zip_final
    skill_dir output_dir w = (Ret p, w') ->
  stdout w' = stdout w ++ map added_line (zf_entries w').
Proof.
  intros R.
  destruct (@package_skill_inv safe_load py_repr zip_partial zip_final
              _ _ _ _ _ R)
    as (v & t1 & t2 & t3 & _ & _ & _ & _ & _ & ->).
  reflexivity.
Qed.


(** X16.  When the output directory can be made but the archive cannot
    be opened, [package_skill] raises the error of [open] for the output
    file; the output directory made on the way stays behind, and nothing
    was printed or added. *)
Theorem package_skill_failed_open_keeps_output_dir
    (skill_dir output_dir : Path) (w : world) (v : pyval) (t1 : FS.node)
    (c : exn_class) :
  let target := div output_dir (format_value py_repr v +++ ".skill") in
  skill_name_of safe_load w skill_dir = Some v ->
  FS.mkdirs (fs w) (resolve w output_dir) = FS.Done t1 ->
  FS.create t1 (resolve w target) EmptyString = FS.Errno c ->
  exists w',
    package_skill safe_load py_repr zip_partial zip_final
      skill_dir output_dir w = (Raise (os_error c target), w') /\
    FS.is_dir_node (stat w' output_dir) = true /\
    stdout w' = stdout w /\
    zf_entries w' = zf_entries w.
Proof.
  intros target N K C.
  pose proof (package_skill_cases safe_load py_repr zip_partial zip_final
                skill_dir output_dir w) as H.
  rewrite N in H.
  pose proof (write_archive_cases py_repr zip_partial zip_final
                v skill_dir output_dir w) as W.
  cbv zeta in W. rewrite K in W. fold target in W. rewrite C in W.
  exists (set_fs w t1). split; [now rewrite H|].
  destruct (@mkdirs_lookup _ _ _ K) as [es L].
  unfold stat, resolve, set_fs. cbn [fs cwd stdout zf_entries].
  unfold resolve in L. rewrite L. auto.
Qed.

(** *** The whole run *)




(** X17.  When the source path is not a directory, [main] prints one
    line, [Not a directory] if the path exists and [Skill directory not
    found] if not, and exits with status 1; the archiver is never called,
    and nothing else is printed or changed. *)
Theorem main_rejects_a_bad_source (package : Path -> Path -> M Path)
    (skill_dir : Path) (output_arg : option Path) (w : world) :
  FS.is_dir_node (stat w skill_dir) = false ->
  main_with safe_load package skill_dir output_arg w
  = (SysExit 1,
     set_stdout w
       (stdout w ++
        [(if FS.is_some_node (stat w skill_dir)
          then "❌ Error: Not a directory: "
          else "❌ Error: Skill directory not found: ") +++ to_str skill_dir])).
Proof.
  intros ND. rewrite main_with_cases. rewrite ND.
  destruct (FS.is_some_node (stat w skill_dir)); reflexivity.
Qed.



(** X20.  When something that is not a directory lies at the output
    directory or on the way to it, [main] ends with status 1, whatever the
    source is, and the file tree is as it was. *)
Theorem main_blocked_output_dir_changes_nothing (skill_dir : Path)
    (output_arg : option Path) (w : world) :
  let D := output_dir_of w output_arg in
  let run := main safe_load py_repr zip_partial zip_final
               skill_dir output_arg w in
  FS.only_dirs_on (fs w) (resolve w D) = false ->
  exit_status (fst run) = 1%Z /\ fs (snd run) = fs w.
Proof.
  intros D run B. subst run. unfold main. rewrite main_with_cases. fold D.
  destruct (FS.is_some_node (stat w skill_dir)); cbn [negb];
    [|split; reflexivity].
  destruct (FS.is_dir_node (stat w skill_dir)); cbn [negb];
    [|split; reflexivity].
  destruct (validate_skill safe_load skill_dir (at_validation w skill_dir D))
    as [r w1] eqn:E.
  destruct (validate_skill_frame _ _ _ E) as (F & _ & _ & NX).
  destruct r as [[|]|e|n]; cbn [fst snd exit_status]; try (split; [reflexivity|exact F]).
  2: { now destruct (NX n). }
  pose proof (package_skill_cases safe_load py_repr zip_partial zip_final
                skill_dir D (at_packaging w skill_dir D)) as H.
  destruct (skill_name_of safe_load (at_packaging w skill_dir D) skill_dir)
    as [v|].
  - rewrite H.
    pose proof (write_archive_cases py_repr zip_partial zip_final
                  v skill_dir D (at_packaging w skill_dir D)) as W.
    cbv zeta in W.
    change (fs (at_packaging w skill_dir D)) with (fs w) in W.
    change (resolve (at_packaging w skill_dir D)) with (resolve w) in W.
    destruct (FS.mkdirs (fs w) (resolve w D)) as [t1|c] eqn:K.
    + assert (X : FS.only_dirs_on (fs w) (resolve w D) = true)
        by (apply mkdirs_total; eauto).
      congruence.
    + rewrite W. split; reflexivity.
  - destruct H as [e H]. rewrite H. split; reflexivity.
Qed.

(** X21.  However the script ends, with or without PyYAML, the regular
    files other than the output file are the same before and after, with
    the same bytes: no other file is changed, removed or created. *)
Theorem script_touches_no_other_file (installed : bool) (skill_dir : Path)
    (output_arg : option Path) (w : world) (r : outcome unit) (w' : world) :
  script safe_load py_repr zip_partial zip_final
    installed skill_dir output_arg w = (r, w') ->
  forall q data,
    (forall v, skill_name_of safe_load w skill_dir = Some v ->
               q <> resolve w (div (output_dir_of w output_arg)
                                 (format_value py_repr v +++ ".skill"))) ->
    (FS.lookup (fs w') q = Some (FS.File data) <->
     FS.lookup (fs w) q = Some (FS.File data)).
Proof.
  intros R q data N. destruct installed.
  2: { injection R as <- <-. tauto. }
  change (script safe_load py_repr zip_partial zip_final true
            skill_dir output_arg w)
    with (main safe_load py_repr zip_partial zip_final
            skill_dir output_arg w) in R.
  unfold main in R. rewrite main_with_cases in R.
  set (D := output_dir_of w output_arg) in *.
  destruct (FS.is_some_node (stat w skill_dir)); cbn [negb] in R.
  2: { injection R as <- <-. tauto. }
  destruct (FS.is_dir_node (stat w skill_dir)); cbn [negb] in R.
  2: { injection R as <- <-. tauto. }
  destruct (validate_skill safe_load skill_dir (at_validation w skill_dir D))
    as [r1 w1] eqn:E.
  destruct (validate_skill_frame _ _ _ E) as (F & _ & _ & _).
  destruct r1 as [[|]|e|n]; try (injection R as <- <-; rewrite F; tauto).
  destruct (package_skill safe_load py_repr zip_partial zip_final
              skill_dir D (at_packaging w skill_dir D)) as [r3 w3] eqn:P.
  assert (X : FS.lookup (fs w3) q = Some (FS.File data) <->
              FS.lookup (fs w) q = Some (FS.File data)).
  { pose proof (package_skill_cases safe_load py_repr zip_partial zip_final
                  skill_dir D (at_packaging w skill_dir D)) as H.
    change (skill_name_of safe_load (at_packaging w skill_dir D) skill_dir)
      with (skill_name_of safe_load w skill_dir) in H.
    destruct (skill_name_of safe_load w skill_dir) as [v|].
    - rewrite H in P.
      exact (@write_archive_files _ _ _ _ _ _ _ _ P (N v eq_refl)).
    - destruct H as [e H]. rewrite H in P. injection P as <- <-. tauto. }
  destruct r3; injection R as <- <-; exact X.
Qed.

End ProgramFacts.

(** ** Instances of the further properties *)

Lemma validate_skill_output_discipline_witness :
  exists line,
    stdout (snd (validate_skill Sample.pyyaml Sample.demo
                   (Sample.world_with Sample.doc_dashes_in_value)))
    = [] ++ [line] /\
    Str.startswith line "❌ Error: " = true.
Proof.
  destruct (@validate_skill_output_discipline Sample.pyyaml Sample.demo
              (Sample.world_with Sample.doc_dashes_in_value)
              (snd (validate_skill Sample.pyyaml Sample.demo
                      (Sample.world_with Sample.doc_dashes_in_value)))
              (Ret false) eq_refl) as (_ & _ & _ & H).
  exact H.
Defined.

Lemma validate_skill_needs_two_delimiters_witness :
  fst (validate_skill Sample.pyyaml Sample.demo
         (Sample.world_with Cases.doc_unclosed)) = Ret false.
Proof.
  apply (@validate_skill_needs_two_delimiters Sample.pyyaml Sample.demo
           (Sample.world_with Cases.doc_unclosed)
           Cases.doc_unclosed Cases.doc_unclosed eq_refl eq_refl).
  intros block rest H. vm_compute in H.
  destruct block as [|c1 [|c2 [|c3 block]]]; vm_compute in H; discriminate.
Defined.

Lemma validate_skill_on_mapping_witness :
  fst (validate_skill Sample.pyyaml Sample.demo
         (Sample.world_with Sample.doc_dashes_in_value)) = Ret false.
Proof.
  exact (@validate_skill_on_mapping Sample.pyyaml Sample.demo
           (Sample.world_with Sample.doc_dashes_in_value)
           [(PyStr "name", PyStr "a")] eq_refl).
Defined.

Lemma frontmatter_body_is_ignored_witness :
  fst (validate_skill Sample.pyyaml Sample.demo
         (Sample.world_with Sample.doc_valid))
  = fst (validate_skill Sample.pyyaml Sample.demo
           (Sample.world_with Cases.doc_other_body)) /\
  skill_name_of Sample.pyyaml (Sample.world_with Sample.doc_valid) Sample.demo
  = skill_name_of Sample.pyyaml (Sample.world_with Cases.doc_other_body)
      Sample.demo.
Proof.
  apply (@frontmatter_body_is_ignored Sample.pyyaml Sample.demo
           (Sample.world_with Sample.doc_valid)
           (Sample.world_with Cases.doc_other_body)
           Sample.doc_valid Cases.doc_other_body
           (LF +++ "name: foo" +++ LF +++ "description: bar" +++ LF)
           (LF +++ "body") (LF +++ "another body, with --- in it"));
    vm_compute; reflexivity.
Defined.

Lemma package_skill_missing_name_key_witness :
  package_skill Cases.pyyaml Sample.repr Sample.zip_partial Sample.zip_final
    Sample.demo Sample.out (Sample.world_with Cases.doc_no_name)
  = (Raise (Exn KeyError "'name'"), Sample.world_with Cases.doc_no_name).
Proof.
  apply (@package_skill_missing_name_key Cases.pyyaml Sample.repr
           Sample.zip_partial Sample.zip_final Sample.demo Sample.out
           (Sample.world_with Cases.doc_no_name) Cases.doc_no_name
           Cases.doc_no_name (LF +++ "description: only" +++ LF)
           [(PyStr "description", PyStr "only")]);
    vm_compute; reflexivity.
Defined.

Lemma package_skill_without_delimiter_witness :
  package_skill Sample.pyyaml Sample.repr Sample.zip_partial Sample.zip_final
    Sample.demo Sample.out (Sample.world_with Cases.doc_plain)
  = (Raise (Exn IndexError "list index out of range"),
     Sample.world_with Cases.doc_plain).
Proof.
  apply (@package_skill_without_delimiter Sample.pyyaml Sample.repr
           Sample.zip_partial Sample.zip_final Sample.demo Sample.out
           (Sample.world_with Cases.doc_plain) Cases.doc_plain
           Cases.doc_plain);
    vm_compute; reflexivity.
Defined.

Lemma package_skill_blocked_output_dir_witness :
  exists c,
    (c = FileExistsError \/ c = NotADirectoryError) /\
    package_skill Sample.pyyaml Sample.repr Sample.zip_partial Sample.zip_final
      Sample.demo (of_string "demo/a.txt") (Sample.world_with Sample.doc_valid)
    = (Raise (os_error c (of_string "demo/a.txt")),
       Sample.world_with Sample.doc_valid).
Proof.
  apply (@package_skill_blocked_output_dir Sample.pyyaml Sample.repr
           Sample.zip_partial Sample.zip_final Sample.demo
           (of_string "demo/a.txt") (Sample.world_with Sample.doc_valid)
           (PyStr "foo"));
    vm_compute; reflexivity.
Defined.

Lemma package_skill_touches_no_other_file_witness :
  FS.lookup
    (fs (snd (package_skill Sample.pyyaml Sample.repr Sample.zip_partial
                Sample.zip_final Sample.demo Sample.out
                (Sample.world_with Sample.doc_valid))))
    ["work"; "demo"; "a.txt"]%string = Some (FS.File "A") <->
  FS.lookup (Sample.tree_with Sample.doc_valid)
    ["work"; "demo"; "a.txt"]%string = Some (FS.File "A").
Proof.
  apply (@package_skill_touches_no_other_file Sample.pyyaml Sample.repr
           Sample.zip_partial Sample.zip_final Sample.demo Sample.out
           (Sample.world_with Sample.doc_valid)
           (Ret (div Sample.out "foo.skill"))
           (snd (package_skill Sample.pyyaml Sample.repr Sample.zip_partial
                   Sample.zip_final Sample.demo Sample.out
                   (Sample.world_with Sample.doc_valid)))
           ltac:(vm_compute; reflexivity)).
  intros v H. vm_compute in H. injection H as <-. vm_compute. discriminate.
Defined.

Lemma package_skill_members_hold_the_file_bytes_witness :
  In (of_string "demo/sub/b.txt", "B"%string)
    (zf_entries
       (snd (package_skill Sample.pyyaml Sample.repr Sample.zip_partial
               Sample.zip_final Sample.demo Sample.out
               (Sample.world_with Sample.doc_valid)))).
Proof.
  apply (proj2
           (@package_skill_members_hold_the_file_bytes Sample.pyyaml
              Sample.repr Sample.zip_partial Sample.zip_final Sample.demo
              Sample.out (Sample.world_with Sample.doc_valid)
              (div Sample.out "foo.skill")
              (snd (package_skill Sample.pyyaml Sample.repr
                      Sample.zip_partial Sample.zip_final Sample.demo
                      Sample.out (Sample.world_with Sample.doc_valid)))
              ltac:(vm_compute; reflexivity))
           ["sub"; "b.txt"]%string "B"%string);
    [discriminate|vm_compute; reflexivity|vm_compute; discriminate].
Defined.

Lemma package_skill_packs_its_own_archive_witness :
  exists before,
    In (of_string "demo/foo.skill", Sample.zip_partial before)
      (zf_entries
         (snd (package_skill Sample.pyyaml Sample.repr Sample.zip_partial
                 Sample.zip_final Sample.demo Sample.demo
                 (Sample.world_with Sample.doc_valid)))).
Proof.
  apply (@package_skill_packs_its_own_archive Sample.pyyaml Sample.repr
           Sample.zip_partial Sample.zip_final Sample.demo Sample.demo
           (Sample.world_with Sample.doc_valid)
           (div Sample.demo "foo.skill")
           (snd (package_skill Sample.pyyaml Sample.repr Sample.zip_partial
                   Sample.zip_final Sample.demo Sample.demo
                   (Sample.world_with Sample.doc_valid)))
           ["foo.skill"%string]);
    [vm_compute; reflexivity|vm_compute; reflexivity|discriminate].
Defined.

Lemma package_skill_prints_one_line_per_member_witness :
  stdout (snd (package_skill Sample.pyyaml Sample.repr Sample.zip_partial
                 Sample.zip_final Sample.demo Sample.out
                 (Sample.world_with Sample.doc_valid)))
  = [] ++ map added_line
            (zf_entries
               (snd (package_skill Sample.pyyaml Sample.repr
                       Sample.zip_partial Sample.zip_final Sample.demo
                       Sample.out (Sample.world_with Sample.doc_valid)))).
Proof.
  apply (@package_skill_prints_one_line_per_member Sample.pyyaml Sample.repr
           Sample.zip_partial Sample.zip_final Sample.demo Sample.out
           (Sample.world_with Sample.doc_valid)
           (div Sample.out "foo.skill")).
  vm_compute; reflexivity.
Defined.


Lemma package_skill_failed_open_keeps_output_dir_witness :
  exists w',
    package_skill Sample.pyyaml Sample.repr Sample.zip_partial Sample.zip_final
      Sample.demo Sample.out (Sample.world_with Sample.doc_slash)
    = (Raise (os_error FileNotFoundError (div Sample.out "a/b.skill")), w') /\
    FS.is_dir_node (stat w' Sample.out) = true /\
    stdout w' = [] /\
    zf_entries w' = [].
Proof.
  eapply (@package_skill_failed_open_keeps_output_dir Sample.pyyaml
            Sample.repr Sample.zip_partial Sample.zip_final Sample.demo
            Sample.out (Sample.world_with Sample.doc_slash) (PyStr "a/b"));
    vm_compute; reflexivity.
Defined.

Lemma main_rejects_a_bad_source_witness :
  main Sample.pyyaml Sample.repr Sample.zip_partial Sample.zip_final
    (of_string "demo/a.txt") None (Sample.world_with Sample.doc_valid)
  = (SysExit 1,
     set_stdout (Sample.world_with Sample.doc_valid)
       ["❌ Error: Not a directory: demo/a.txt"%string]).
Proof.
  exact (@main_rejects_a_bad_source Sample.pyyaml
           (package_skill Sample.pyyaml Sample.repr Sample.zip_partial
              Sample.zip_final)
           (of_string "demo/a.txt") None (Sample.world_with Sample.doc_valid)
           eq_refl).
Defined.



Lemma main_blocked_output_dir_changes_nothing_witness :
  exit_status
    (fst (main Sample.pyyaml Sample.repr Sample.zip_partial Sample.zip_final
            Sample.demo (Some (of_string "demo/a.txt"))
            (Sample.world_with Sample.doc_valid))) = 1%Z /\
  fs (snd (main Sample.pyyaml Sample.repr Sample.zip_partial Sample.zip_final
             Sample.demo (Some (of_string "demo/a.txt"))
             (Sample.world_with Sample.doc_valid)))
  = Sample.tree_with Sample.doc_valid.
Proof.
  apply (@main_blocked_output_dir_changes_nothing Sample.pyyaml Sample.repr
           Sample.zip_partial Sample.zip_final Sample.demo
           (Some (of_string "demo/a.txt"))
           (Sample.world_with Sample.doc_valid)).
  vm_compute; reflexivity.
Defined.

Lemma script_touches_no_other_file_witness :
  FS.lookup
    (fs (snd (script Sample.pyyaml Sample.repr Sample.zip_partial
                Sample.zip_final true Sample.demo (Some Sample.out)
                (Sample.world_with Sample.doc_valid))))
    ["work"; "demo"; "SKILL.md"]%string = Some (FS.File Sample.doc_valid) <->
  FS.lookup (Sample.tree_with Sample.doc_valid)
    ["work"; "demo"; "SKILL.md"]%string = Some (FS.File Sample.doc_valid).
Proof.
  apply (@script_touches_no_other_file Sample.pyyaml Sample.repr
           Sample.zip_partial Sample.zip_final true Sample.demo
           (Some Sample.out) (Sample.world_with Sample.doc_valid)
           (Ret tt)
           (snd (script Sample.pyyaml Sample.repr Sample.zip_partial
                   Sample.zip_final true Sample.demo (Some Sample.out)
                   (Sample.world_with Sample.doc_valid)))
           ltac:(vm_compute; reflexivity)).
  intros v H. vm_compute in H. injection H as <-. vm_compute. discriminate.
Defined.

Lemma validate_skill_true_exactly_when_witness :
  validate_skill Sample.pyyaml Sample.demo (Sample.world_with Sample.doc_valid)
  = (Ret true, Sample.world_with Sample.doc_valid).
Proof.
  apply (proj2 (@validate_skill_true_exactly_when Sample.pyyaml Sample.demo
                  (Sample.world_with Sample.doc_valid)
                  (Sample.world_with Sample.doc_valid))).
  split; [reflexivity|].
  exists Sample.doc_valid, Sample.doc_valid,
    (LF +++ "name: foo" +++ LF +++ "description: bar" +++ LF),
    (LF +++ "body"),
    (PyDict [(PyStr "name", PyStr "foo"); (PyStr "description", PyStr "bar")]).
  do 7 (split; [vm_compute; reflexivity|]). vm_compute; reflexivity.
Defined.

Lemma validate_skill_false_exactly_when_witness :
  validate_skill Sample.pyyaml Sample.demo (Sample.world_with Cases.doc_plain)
  = (Ret false,
     set_stdout (Sample.world_with Cases.doc_plain)
       ["❌ Error: SKILL.md missing YAML frontmatter (must start with '---')"%string]).
Proof.
  apply (proj2 (@validate_skill_false_exactly_when Sample.pyyaml Sample.demo
                  (Sample.world_with Cases.doc_plain) _)).
  eexists. split; [reflexivity|]. right.
  exists Cases.doc_plain, Cases.doc_plain.
  split; [reflexivity|]. split; [reflexivity|]. left.
  split; reflexivity.
Defined.

